(** * HT16K33 seven-segment display driver (gobot, drivers/i2c)

    A shallow embedding of [ht16k33_driver.go] and the properties its
    specification states about it.  The driver turns display requests into
    register writes on an i2c connection; the embedding threads the
    connection through a small state monad in which every bus transaction
    is recorded, so that "which writes were issued, in which order" is a
    statement about a list. *)

From Stdlib Require Import ZArith Lia Ascii String List Bool.
From stdpp Require Import base list.
Import ListNotations.

Local Open Scope string_scope.
Local Open Scope list_scope.
Local Open Scope Z_scope.

(** ** Go values *)

(** The two sentinel causes carried by a [*strconv.NumError]. *)
Inductive NumErrKind : Type := ErrSyntax | ErrRange.

(** Error values that can reach a caller of the driver: the four package
    level sentinels, the errors of package [strconv], and whatever the
    i2c transport reports. *)
Inductive error : Type :=
| ErrNumberTooBig
| ErrDigitTooBig
| ErrBinaryTooBig
| ErrPositionOutOfRange
| NumError (fn num : string) (kind : NumErrKind)
| ErrTransport (code : nat).

(** A Go run-time panic.  The only one the driver can raise by itself is
    an index outside a slice. *)
Inductive panic : Type :=
| IndexOutOfRange (i : Z) (len : nat).

(** Outcome of running a Go function: it returns, or it panics. *)
Inductive Run (A : Type) : Type :=
| Returns (a : A)
| Panics (p : panic).
Arguments Returns {A} a.
Arguments Panics {A} p.

(** Conversions to the unsigned machine types used by the driver. *)
Definition uint8 (x : Z) : Z := x mod 256.
Definition uint16 (x : Z) : Z := x mod 65536.
Definition uint64 (x : Z) : Z := x mod 2 ^ 64.

(** [strconv.IntSize] on the 64-bit targets the driver is built for. *)
Definition intSize : Z := 64.

(** [s[i]] for reading and [s[i] = v] for writing a slice; [None] is the
    index-out-of-range panic. *)
Definition index {A : Type} (s : list A) (i : Z) : option A :=
  if (0 <=? i) && (i <? Z.of_nat (length s)) then s !! Z.to_nat i else None.

Definition store {A : Type} (s : list A) (i : Z) (v : A) : option (list A) :=
  if (0 <=? i) && (i <? Z.of_nat (length s)) then Some (<[Z.to_nat i := v]> s)
  else None.

(** ** Package [strconv] and [strings]

    These are Go standard library functions; they are embedded from their
    documented behaviour, left to right as the library scans its input. *)

Definition digit_char (d : Z) : ascii := ascii_of_nat (48 + Z.to_nat d).

(** Decimal digits of a non-negative number, most significant first.
    [fuel] bounds the number of digits produced. *)
Fixpoint utoa (fuel : nat) (n : Z) (acc : string) : string :=
  match fuel with
  | O => acc
  | S k =>
      let acc' := String (digit_char (n mod 10)) acc in
      if n <? 10 then acc' else utoa k (n / 10) acc'
  end.

(** A number below [2^k] has at most [k] decimal digits, and at least
    one. *)
Definition digits_bound (n : Z) : nat := S (Z.to_nat (Z.log2 n)).

(** [strconv.Itoa] *)
Definition Itoa (n : Z) : string :=
  if n <? 0 then String "-" (utoa (digits_bound (- n)) (- n) "")
  else utoa (digits_bound n) n "".

(** [strings.Split(s, "")]: one string per character.  The driver only
    splits the output of [Itoa], which is ASCII, so characters are bytes. *)
Fixpoint Split (s : string) : list string :=
  match s with
  | EmptyString => []
  | String c r => String c EmptyString :: Split r
  end.

(** Value of a character as a digit in bases up to 36. *)
Definition digit_of (c : ascii) : option Z :=
  let n := Z.of_nat (nat_of_ascii c) in
  if (48 <=? n) && (n <=? 57) then Some (n - 48)
  else if (97 <=? n) && (n <=? 122) then Some (n - 97 + 10)
  else if (65 <=? n) && (n <=? 90) then Some (n - 65 + 10)
  else None.

(** The scanning loop of [strconv.ParseUint]; [fn] and [s0] are only used
    to build the error value.  It stops at the first offending character. *)
Fixpoint ParseUint_loop (fn s0 : string) (base cutoff maxVal : Z)
    (s : string) (n : Z) : Z * option error :=
  match s with
  | EmptyString => (n, None)
  | String c r =>
      match digit_of c with
      | None => (0, Some (NumError fn s0 ErrSyntax))
      | Some d =>
          if d >=? base then (0, Some (NumError fn s0 ErrSyntax))
          else if n >=? cutoff then (maxVal, Some (NumError fn s0 ErrRange))
          else
            let n' := uint64 (n * base) in
            let n1 := uint64 (n' + d) in
            if (n1 <? n') || (n1 >? maxVal)
            then (maxVal, Some (NumError fn s0 ErrRange))
            else ParseUint_loop fn s0 base cutoff maxVal r n1
      end
  end.

(** [strconv.ParseUint(s, base, bitSize)] for an explicit base (2 to 36),
    where underscores are not accepted. *)
Definition ParseUint_as (fn s0 : string) (s : string) (base bitSize : Z)
  : Z * option error :=
  match s with
  | EmptyString => (0, Some (NumError fn s0 ErrSyntax))
  | _ =>
      let bitSize := if bitSize =? 0 then intSize else bitSize in
      let cutoff := (2 ^ 64 - 1) / base + 1 in
      let maxVal := 2 ^ bitSize - 1 in
      ParseUint_loop fn s0 base cutoff maxVal s 0
  end.

Definition ParseUint (s : string) (base bitSize : Z) : Z * option error :=
  ParseUint_as "ParseUint" s s base bitSize.

(** [strconv.ParseInt], with the function name reported in errors as a
    parameter (Atoi reports its own name). *)
Definition ParseInt_as (fn : string) (s : string) (base bitSize : Z)
  : Z * option error :=
  match s with
  | EmptyString => (0, Some (NumError fn s ErrSyntax))
  | String c r =>
      let neg := Ascii.eqb c "-"%char in
      let body := if Ascii.eqb c "+"%char || neg then r else s in
      match ParseUint_as fn s body base bitSize with
      | (_, Some (NumError f x ErrSyntax)) => (0, Some (NumError f x ErrSyntax))
      | (un, _) =>
          let bitSize := if bitSize =? 0 then intSize else bitSize in
          let cutoff := 2 ^ (bitSize - 1) in
          if negb neg && (un >=? cutoff)
          then (cutoff - 1, Some (NumError fn s ErrRange))
          else if neg && (un >? cutoff)
          then (- cutoff, Some (NumError fn s ErrRange))
          else (if neg then - un else un, None)
      end
  end.

(** [strconv.Atoi] *)
Definition Atoi (s : string) : Z * option error := ParseInt_as "Atoi" s 10 0.

(** ** The driver's constants *)

Definition ht16k33Address : Z := 0x70.

Definition ht16k33RegSetup : Z := 0x20.
Definition ht16k33RegBlink : Z := 0x80.
Definition ht16k33RegDisplay : Z := 0x80.
Definition ht16k33RegBrightness : Z := 0xE0.

Definition ht16k33OscillatorOn : Z := 0x21.
Definition ht16k33DisplayOn : Z := 0x01.
Definition ht16k33ColonOn : Z := 0x02.
Definition ht16k33Off : Z := 0x00.

(** Segment patterns of the ten digits. *)
Definition digit : list Z :=
  [ 0x0C3F; 0x0006; 0x00DB; 0x004F; 0x00E6;
    0x00ED; 0x00FD; 0x0007; 0x00FF; 0x00EF ].

(** ** splitNumberIntoDigits *)

(** The body of [for i, char := range chars]; [len] is [len(chars)] of the
    whole slice and [i] the index of the head of [chars]. *)
Fixpoint splitNumberIntoDigits_loop (chars : list string) (len i : Z)
    (out : list Z) : Run (list Z + error) :=
  match chars with
  | [] => Returns (inl out)
  | char :: rest =>
      match Atoi char with
      | (_, Some err) => Returns (inr err)
      | (d, None) =>
          (* Right-justify *)
          match store out (4 - len + i) d with
          | None => Panics (IndexOutOfRange (4 - len + i) (length out))
          | Some out' => splitNumberIntoDigits_loop rest len (i + 1) out'
          end
      end
  end.

Definition splitNumberIntoDigits (n : Z) : Run (list Z + error) :=
  let out := replicate 4 0 in
  if n >? 9999 then Returns (inr ErrNumberTooBig)
  else
    let chars := Split (Itoa n) in
    splitNumberIntoDigits_loop chars (Z.of_nat (length chars)) 0 out.

(** ** The i2c connection

    The transport is an external collaborator.  It is modelled by what the
    driver can observe of it: each transaction either succeeds or fails
    with an error of the transport's choosing, possibly depending on
    everything sent so far.  The connection records the transactions. *)

Inductive BusOp : Type :=
| OpWriteByte (v : Z)
| OpReadByte
| OpWriteWordData (reg v : Z).

Record Connection : Type := mkConnection {
  issued : list BusOp;                          (* oldest first *)
  fault : list BusOp -> BusOp -> option error;  (* does this one fail? *)
  rx : list BusOp -> Z                          (* byte answered to a read *)
}.

(** Go code with access to the connection: a state monad with panics. *)
Definition M (A : Type) : Type := Connection -> Run A * Connection.

Definition ret {A : Type} (a : A) : M A := fun c => (Returns a, c).

Definition raise {A : Type} (p : panic) : M A := fun c => (Panics p, c).

Definition bind {A B : Type} (m : M A) (k : A -> M B) : M B :=
  fun c =>
    match m c with
    | (Returns a, c') => k a c'
    | (Panics p, c') => (Panics p, c')
    end.

Notation "x <- m ;; k" := (bind m (fun x => k))
  (at level 100, m at next level, right associativity).

(** [if err := m; err != nil { return err }] followed by [k]. *)
Definition guard (m k : M (option error)) : M (option error) :=
  err <- m ;;
  match err with
  | Some e => ret (Some e)
  | None => k
  end.

Notation "'check' m ;; k" := (guard m k)
  (at level 100, m at next level, right associativity).

(** One transaction on the wire. *)
Definition transact (op : BusOp) : M (option error) :=
  fun c =>
    (Returns (fault c (issued c) op),
     mkConnection (issued c ++ [op]) (fault c) (rx c)).

Definition WriteByte (v : Z) : M (option error) := transact (OpWriteByte v).

Definition WriteWordData (reg v : Z) : M (option error) :=
  transact (OpWriteWordData reg v).

Definition ReadByte : M (Z * option error) :=
  fun c =>
    match transact OpReadByte c with
    | (Returns err, c') => (Returns (rx c (issued c), err), c')
    | (Panics p, c') => (Panics p, c')
    end.

(** ** The driver

    Every method but [Start] uses nothing of its receiver except the
    connection that [Start] has opened, so it is embedded as a computation
    on that connection. *)

(** SetDisplay turns the display on if on is true, otherwise turns it off *)
Definition SetDisplay (on : bool) : M (option error) :=
  let v := if on then ht16k33DisplayOn else ht16k33Off in
  WriteByte (Z.lor ht16k33RegDisplay v).

(** SetBrightness sets the display brightness between 0 (off) and 15 *)
Definition SetBrightness (b : Z) : M (option error) :=
  let b := if b >? 15 then 15 else b in
  WriteByte (Z.lor ht16k33RegBrightness b).

(** Colon sets the colon value *)
Definition Colon (on : bool) : M (option error) :=
  let v := if on then ht16k33ColonOn else ht16k33Off in
  WriteWordData 0x04 v.

(** [for p := uint8(0); p < 5; p++]: [todo] counts the iterations that
    remain, [p] is the loop variable. *)
Fixpoint Clear_loop (todo : nat) (p : Z) : M (option error) :=
  match todo with
  | O => ret None
  | S k =>
      check WriteWordData (uint8 (p * 2)) 0x0000 ;;
      Clear_loop k (uint8 (p + 1))
  end.

(** Clear the display *)
Definition Clear : M (option error) := Clear_loop 5 0.

(** WriteBinary takes segment on/off specified as a binary string and
    displays it at the specified position (0-3). *)
Definition WriteBinary (pos : Z) (b : string) : M (option error) :=
  if pos >? 3 then ret (Some ErrPositionOutOfRange)
  else
    (* Skip colon at position 2 *)
    let pos := if (pos =? 2) || (pos =? 3) then uint8 (pos + 1) else pos in
    match ParseUint b 2 16 with
    | (_, Some err) => ret (Some err)
    | (w, None) =>
        if w >? 65535 then ret (Some ErrBinaryTooBig)
        else WriteWordData (uint8 (pos * 2)) (uint16 w)
    end.

(** WriteDigit displays the digit (0-9) at the specified position (0-3). *)
Definition WriteDigit (pos : Z) (d : Z) : M (option error) :=
  if pos >? 3 then ret (Some ErrPositionOutOfRange)
  else if d >? 9 then ret (Some ErrDigitTooBig)
  else
    (* Skip colon at position 2 *)
    let pos := if (pos =? 2) || (pos =? 3) then uint8 (pos + 1) else pos in
    (* Registers are 2 bytes wide *)
    match index digit d with
    | None => raise (IndexOutOfRange d (length digit))
    | Some w => WriteWordData (uint8 (pos * 2)) w
    end.

(** The body of [for pos, digit := range digits] in WriteNumber. *)
Fixpoint WriteNumber_loop (digits : list Z) (pos : Z) (foundDigit : bool)
  : M (option error) :=
  match digits with
  | [] => ret None
  | d :: rest =>
      let foundDigit := if d >? 0 then true else foundDigit in
      (* Skip leading zeros *)
      if negb foundDigit then WriteNumber_loop rest (pos + 1) foundDigit
      else
        check WriteDigit (uint8 pos) d ;;
        WriteNumber_loop rest (pos + 1) foundDigit
  end.

(** WriteNumber displays a 4-digit number on the panel.  Leading zeros are
    not shown. *)
Definition WriteNumber (n : Z) : M (option error) :=
  match splitNumberIntoDigits n with
  | Panics p => raise p
  | Returns (inr err) => ret (Some err)
  | Returns (inl digits) =>
      (* Clear the panel. *)
      check Clear ;;
      WriteNumber_loop digits 0 false
  end.

(** The adaptor the driver is constructed with, and its configuration.
    Both are declared elsewhere in the package; they are taken as records
    of the methods [Start] calls. *)
Record Connector : Type := mkConnector {
  GetDefaultBus : Z;
  GetConnection : Z -> Z -> Connection + error
}.

Record Config : Type := mkConfig {
  GetBusOrDefault : Z -> Z;
  GetAddressOrDefault : Z -> Z
}.

Record HT16K33Driver : Type := mkDriver {
  name : string;
  connector : Connector;
  connection : option Connection;
  config : Config
}.

Definition with_connection (h : HT16K33Driver) (c : option Connection)
  : HT16K33Driver :=
  mkDriver (name h) (connector h) c (config h).

(** The part of [Start] that talks to the chip. *)
Definition Start_sequence : M (option error) :=
  (* Start oscillator *)
  check WriteByte (Z.lor ht16k33RegSetup ht16k33OscillatorOn) ;;
  (* Read first byte to initialise *)
  check (r <- ReadByte ;; ret (snd r)) ;;
  (* Turn on the display *)
  check SetDisplay true ;;
  (* Set maximum brightness *)
  check SetBrightness 15 ;;
  ret None.

(** Start initializes the ht16k33 *)
Definition Start (h : HT16K33Driver) : Run (option error) * HT16K33Driver :=
  let bus := GetBusOrDefault (config h) (GetDefaultBus (connector h)) in
  let address := GetAddressOrDefault (config h) ht16k33Address in
  match GetConnection (connector h) address bus with
  | inr err => (Returns (Some err), with_connection h None)
  | inl conn =>
      let (r, conn') := Start_sequence conn in
      (r, with_connection h (Some conn'))
  end.

(** A connection to a device that never fails and has seen nothing yet. *)
Definition quiet : Connection :=
  mkConnection [] (fun _ _ => None) (fun _ => 0).

(** A connection on which the [k]-th transaction (counting from 0) fails. *)
Definition failing_at (k : nat) (e : error) : Connection :=
  mkConnection []
    (fun past _ => if Nat.eqb (length past) k then Some e else None)
    (fun _ => 0).

(** ** The words of the specification

    These definitions are not taken from the code: they say what the
    specification says, and the theorems compare the driver with them. *)

(** Physical sub-register of a logical position (colon-skip rule). *)
Definition colon_skip (p : Z) : Z :=
  if p <=? 1 then p * 2 else (p + 1) * 2.

(** The table of segment patterns as the specification lists it. *)
Definition segment_pattern (d : Z) : Z :=
  match d with
  | 0 => 0x0C3F | 1 => 0x0006 | 2 => 0x00DB | 3 => 0x004F | 4 => 0x00E6
  | 5 => 0x00ED | 6 => 0x00FD | 7 => 0x0007 | 8 => 0x00FF | 9 => 0x00EF
  | _ => 0
  end.

(** The four decimal digits of a number, most significant first. *)
Definition decimal4 (n : Z) : list Z :=
  [n / 1000 mod 10; n / 100 mod 10; n / 10 mod 10; n mod 10].

(** Performing transactions in strict order, stopping at the first one
    that fails and returning its failure as it is. *)
Fixpoint issue (ops : list BusOp) : M (option error) :=
  match ops with
  | [] => ret None
  | op :: rest => check transact op ;; issue rest
  end.

(** The four transactions of initialisation. *)
Definition start_ops : list BusOp :=
  [ OpWriteByte 0x21; OpReadByte; OpWriteByte 0x81; OpWriteByte 0xEF ].

(** The five word writes of a whole-panel clear. *)
Definition clear_ops : list BusOp :=
  [ OpWriteWordData 0 0; OpWriteWordData 2 0; OpWriteWordData 4 0;
    OpWriteWordData 6 0; OpWriteWordData 8 0 ].

(** Slots paired with their position, and the slots left once the leading
    zeros are blanked. *)
Fixpoint slots_from (p : Z) (ds : list Z) : list (Z * Z) :=
  match ds with
  | [] => []
  | d :: rest => (p, d) :: slots_from (p + 1) rest
  end.

Fixpoint blank_leading_zeros (slots : list (Z * Z)) : list (Z * Z) :=
  match slots with
  | [] => []
  | (p, d) :: rest =>
      if d =? 0 then blank_leading_zeros rest else (p, d) :: rest
  end.

(** The bus write a successful [WriteDigit p d] amounts to. *)
Definition digit_op (slot : Z * Z) : BusOp :=
  OpWriteWordData (colon_skip (fst slot)) (segment_pattern (snd slot)).

(** A device that never reports a failure. *)
Definition reliable (c : Connection) : Prop :=
  forall past op, fault c past op = None.

(** Reading a string of binary digits. *)
Definition is_binary_char (c : ascii) : bool :=
  Ascii.eqb c "0"%char || Ascii.eqb c "1"%char.

Fixpoint all_binary (s : string) : bool :=
  match s with
  | EmptyString => true
  | String c r => is_binary_char c && all_binary r
  end.

Fixpoint binary_value_from (s : string) (acc : Z) : Z :=
  match s with
  | EmptyString => acc
  | String c r =>
      binary_value_from r (2 * acc + (if Ascii.eqb c "1"%char then 1 else 0))
  end.

Definition binary_value (s : string) : Z := binary_value_from s 0.

(** The scanning loop of [ParseUint] as [WriteBinary] runs it: base 2,
    16 bits. *)
Definition scan16 (fn s0 : string) : string -> Z -> Z * option error :=
  ParseUint_loop fn s0 2 ((2 ^ 64 - 1) / 2 + 1) (2 ^ 16 - 1).

(** ** Observing a sequence of transactions *)

(** The word most recently sent to a sub-register in a sequence of
    transactions; [cur] is what was there before the sequence. *)
Fixpoint last_word_sent (reg : Z) (ops : list BusOp) (cur : option Z)
  : option Z :=
  match ops with
  | [] => cur
  | OpWriteWordData r v :: rest =>
      last_word_sent reg rest (if r =? reg then Some v else cur)
  | _ :: rest => last_word_sent reg rest cur
  end.

(** Reading a digit sequence back as a number, most significant first. *)
Definition number_of_digits (ds : list Z) : Z :=
  fold_left (fun acc d => acc * 10 + d) ds 0.

(** The digit writes of a number, by its magnitude: one write per decimal
    digit, right-justified on the panel. *)
Definition digit_writes (n : Z) : list BusOp :=
  let w p k := OpWriteWordData p (segment_pattern (n / k mod 10)) in
  if n <? 1 then []
  else if n <? 10 then [w 8 1]
  else if n <? 100 then [w 6 10; w 8 1]
  else if n <? 1000 then [w 2 100; w 6 10; w 8 1]
  else [w 0 1000; w 2 100; w 6 10; w 8 1].

(** ** A helper of the driver's tests

    [i2cWriteByteToWord] decodes the two bytes the test adaptor receives
    for a word write; its error is [errors.New] of a message, modelled by
    the message. *)
Definition i2cWriteByteToWord (b : list Z) : Z + string :=
  match b with
  | [b0; b1] => inl (Z.lor (uint16 (Z.shiftl (uint16 b1) 8)) (uint16 b0))
  | _ => inr "expected 2 bytes"
  end.

(** * Properties *)

(** ** The embedding on a few inputs *)

Example split_1234 : splitNumberIntoDigits 1234 = Returns (inl [1; 2; 3; 4]).
Proof. reflexivity. Qed.

Example split_10 : splitNumberIntoDigits 10 = Returns (inl [0; 0; 1; 0]).
Proof. reflexivity. Qed.

Example split_neg : splitNumberIntoDigits (-5) =
  Returns (inr (NumError "Atoi" "-" ErrSyntax)).
Proof. reflexivity. Qed.

Example WriteNumber_1234 :
  issued (snd (WriteNumber 1234 quiet)) =
  [ OpWriteWordData 0 0; OpWriteWordData 2 0; OpWriteWordData 4 0;
    OpWriteWordData 6 0; OpWriteWordData 8 0;
    OpWriteWordData 0 0x0006; OpWriteWordData 2 0x00DB;
    OpWriteWordData 6 0x004F; OpWriteWordData 8 0x00E6 ].
Proof. reflexivity. Qed.

Example Start_quiet :
  option_map issued (connection (snd (Start
    (mkDriver "HT16K33" (mkConnector 1 (fun _ _ => inl quiet)) None
              (mkConfig (fun d => d) (fun d => d))))))
  = Some [ OpWriteByte 0x21; OpReadByte; OpWriteByte 0x81; OpWriteByte 0xEF ].
Proof. reflexivity. Qed.

(** ** The monad and the wire *)

Lemma transact_issued op c :
  issued (snd (transact op c)) = issued c ++ [op].
Proof. reflexivity. Qed.

Lemma guard_unfold (m k : M (option error)) c :
  guard m k c =
  match m c with
  | (Returns None, c') => k c'
  | (Returns (Some e), c') => (Returns (Some e), c')
  | (Panics p, c') => (Panics p, c')
  end.
Proof.
  unfold guard, bind. destruct (m c) as [[[e|]|p] c']; reflexivity.
Qed.

Lemma issue_one op c : issue [op] c = transact op c.
Proof.
  cbn [issue]. rewrite guard_unfold.
  destruct (transact op c) as [[[e|]|p] c']; reflexivity.
Qed.

Lemma issue_app ops1 ops2 c :
  issue (ops1 ++ ops2) c = guard (issue ops1) (issue ops2) c.
Proof.
  revert c. induction ops1 as [|op ops1 IH]; intros c.
  - reflexivity.
  - rewrite (guard_unfold (issue (op :: ops1))).
    cbn [app issue]. rewrite !guard_unfold.
    destruct (transact op c) as [[[e|]|p] c']; try reflexivity.
    rewrite IH. now rewrite guard_unfold.
Qed.

(** On a reliable device every transaction of the list goes out. *)
Lemma issue_reliable ops c :
  reliable c ->
  issue ops c = (Returns None, mkConnection (issued c ++ ops) (fault c) (rx c)).
Proof.
  revert c. induction ops as [|op ops IH]; intros c Hc.
  - cbn. rewrite app_nil_r. now destruct c.
  - cbn [issue]. unfold guard, bind. cbn [transact]. rewrite Hc. cbn [ret].
    rewrite IH by exact Hc. cbn [issued fault rx].
    now rewrite <- app_assoc.
Qed.

(** What [issue] does on any device: a prefix of the list goes out, in
    order; everything before the last one sent succeeded; the result is
    the failure of the last one sent, or success if the whole list went
    out. *)
Lemma issue_prefix ops c :
  exists k : nat,
    (k <= length ops)%nat /\
    snd (issue ops c) = mkConnection (issued c ++ take k ops) (fault c) (rx c) /\
    (forall j op, (j < k - 1)%nat -> ops !! j = Some op ->
       fault c (issued c ++ take j ops) op = None) /\
    match fst (issue ops c) with
    | Returns None => k = length ops
    | Returns (Some e) =>
        exists op, ops !! (k - 1)%nat = Some op /\ (0 < k)%nat /\
                   fault c (issued c ++ take (k - 1) ops) op = Some e
    | Panics _ => False
    end.
Proof.
  revert c. induction ops as [|op ops IH]; intros c.
  - exists 0%nat. cbn. rewrite app_nil_r. destruct c; repeat split; try lia.
  - cbn [issue]. unfold guard, bind. cbn [transact].
    destruct (fault c (issued c) op) as [e|] eqn:Hf; cbn [ret].
    + exists 1%nat. cbn. repeat split; try lia.
      exists op. rewrite app_nil_r.
      split; [reflexivity | split; [lia | exact Hf]].
    + destruct (IH (mkConnection (issued c ++ [op]) (fault c) (rx c)))
        as (k & Hk & Hsnd & Hbefore & Hres).
      cbn [issued fault rx] in *.
      exists (S k). split; [cbn; lia|]. split.
      { rewrite Hsnd. cbn [take]. now rewrite <- app_assoc. }
      split.
      { intros j o Hj Hlook. destruct j as [|j].
        - cbn in Hlook. injection Hlook as <-. cbn. now rewrite app_nil_r.
        - cbn in Hlook. cbn [take].
          specialize (Hbefore j o). rewrite <- app_assoc in Hbefore.
          apply Hbefore; [lia | exact Hlook]. }
      destruct (fst (issue ops _)) as [[e|]|p]; try contradiction.
      * destruct Hres as (o & Hlook & Hpos & Hfail).
        exists o. destruct k as [|k]; [lia|].
        cbn [Nat.sub] in *. rewrite Nat.sub_0_r in *.
        split; [exact Hlook|]. split; [lia|].
        cbn [take]. rewrite <- app_assoc in Hfail. exact Hfail.
      * cbn. now rewrite Hres.
Qed.

(** ** Positions and patterns *)

Lemma register_of_position pos :
  0 <= pos <= 3 ->
  uint8 ((if (pos =? 2) || (pos =? 3) then uint8 (pos + 1) else pos) * 2)
  = colon_skip pos.
Proof.
  intros H.
  assert (pos = 0 \/ pos = 1 \/ pos = 2 \/ pos = 3) as [->|[->|[->| ->]]] by lia;
    reflexivity.
Qed.

Lemma digit_lookup d :
  0 <= d <= 9 -> index digit d = Some (segment_pattern d).
Proof.
  intros H.
  assert (d = 0 \/ d = 1 \/ d = 2 \/ d = 3 \/ d = 4 \/
          d = 5 \/ d = 6 \/ d = 7 \/ d = 8 \/ d = 9)
    as [->|[->|[->|[->|[->|[->|[->|[->|[->| ->]]]]]]]]] by lia;
    reflexivity.
Qed.

Lemma digit_lookup_negative d :
  d < 0 -> index digit d = None.
Proof.
  intros H. unfold index.
  destruct (0 <=? d) eqn:E; [apply Z.leb_le in E; lia | reflexivity].
Qed.

Lemma WriteDigit_transacts pos d c :
  0 <= pos <= 3 -> 0 <= d <= 9 ->
  WriteDigit pos d c =
  transact (OpWriteWordData (colon_skip pos) (segment_pattern d)) c.
Proof.
  intros Hpos Hd. unfold WriteDigit.
  destruct (pos >? 3) eqn:E1; [apply Z.gtb_lt in E1; lia|].
  destruct (d >? 9) eqn:E2; [apply Z.gtb_lt in E2; lia|].
  rewrite digit_lookup by exact Hd.
  rewrite register_of_position by exact Hpos.
  reflexivity.
Qed.

Lemma WriteDigit_bad_position pos d c :
  3 < pos -> WriteDigit pos d c = (Returns (Some ErrPositionOutOfRange), c).
Proof.
  intros H. unfold WriteDigit.
  destruct (pos >? 3) eqn:E; [reflexivity|].
  rewrite Z.gtb_ltb in E. apply Z.ltb_ge in E. lia.
Qed.

Lemma WriteDigit_big_digit pos d c :
  pos <= 3 -> 9 < d -> WriteDigit pos d c = (Returns (Some ErrDigitTooBig), c).
Proof.
  intros Hp Hd. unfold WriteDigit.
  destruct (pos >? 3) eqn:E1; [apply Z.gtb_lt in E1; lia|].
  destruct (d >? 9) eqn:E2; [reflexivity|].
  rewrite Z.gtb_ltb in E2. apply Z.ltb_ge in E2. lia.
Qed.

Lemma WriteDigit_negative_digit pos d c :
  pos <= 3 -> d < 0 ->
  WriteDigit pos d c = (Panics (IndexOutOfRange d 10), c).
Proof.
  intros Hp Hd. unfold WriteDigit.
  destruct (pos >? 3) eqn:E1; [apply Z.gtb_lt in E1; lia|].
  destruct (d >? 9) eqn:E2; [apply Z.gtb_lt in E2; lia|].
  rewrite digit_lookup_negative by exact Hd. reflexivity.
Qed.

(** ** Decimal digits *)

Lemma Atoi_digit_char d :
  0 <= d <= 9 -> Atoi (String (digit_char d) "") = (d, None).
Proof.
  intros H.
  assert (d = 0 \/ d = 1 \/ d = 2 \/ d = 3 \/ d = 4 \/
          d = 5 \/ d = 6 \/ d = 7 \/ d = 8 \/ d = 9)
    as [->|[->|[->|[->|[->|[->|[->|[->|[->| ->]]]]]]]]] by lia;
    reflexivity.
Qed.

Lemma Atoi_minus : Atoi "-" = (0, Some (NumError "Atoi" "-" ErrSyntax)).
Proof. reflexivity. Qed.

Lemma utoa_last k n acc :
  n < 10 -> utoa (S k) n acc = String (digit_char (n mod 10)) acc.
Proof.
  intros H. cbn [utoa].
  destruct (n <? 10) eqn:E; [reflexivity | apply Z.ltb_ge in E; lia].
Qed.

Lemma utoa_more k n acc :
  10 <= n ->
  utoa (S k) n acc = utoa k (n / 10) (String (digit_char (n mod 10)) acc).
Proof.
  intros H. cbn [utoa].
  destruct (n <? 10) eqn:E; [apply Z.ltb_lt in E; lia | reflexivity].
Qed.

Lemma digits_bound_S n : exists k, digits_bound n = S k.
Proof. unfold digits_bound. eauto. Qed.

Lemma digits_bound_4 n :
  8 <= n -> exists k, digits_bound n = S (S (S (S k))).
Proof.
  intros H. unfold digits_bound.
  assert (3 <= Z.log2 n) as Hlog.
  { change 3 with (Z.log2 8). now apply Z.log2_le_mono. }
  exists (Z.to_nat (Z.log2 n - 3)).
  replace (Z.log2 n) with (3 + (Z.log2 n - 3)) at 1 by lia.
  rewrite Z2Nat.inj_add by lia. reflexivity.
Qed.

(** More fuel than digits changes nothing, and [digits_bound] is never
    short of digits: [Itoa] prints the whole number. *)
Lemma utoa_enough f : forall g n acc,
  0 <= n < 10 ^ Z.of_nat f -> (0 < f)%nat -> (f <= g)%nat ->
  utoa g n acc = utoa f n acc.
Proof.
  induction f as [|f IH]; intros g n acc Hn Hf Hg; [lia|].
  destruct g as [|g]; [lia|]. cbn [utoa].
  destruct (n <? 10) eqn:E; [reflexivity|]. apply Z.ltb_ge in E.
  rewrite Nat2Z.inj_succ, Z.pow_succ_r in Hn by lia.
  destruct f as [|f]; [cbn in Hn; lia|].
  apply IH; [|lia|lia]. split.
  - apply Z.div_pos; lia.
  - apply Z.div_lt_upper_bound; lia.
Qed.

Lemma digits_bound_enough n :
  0 <= n -> n < 10 ^ Z.of_nat (digits_bound n).
Proof.
  intros H. unfold digits_bound.
  rewrite Nat2Z.inj_succ, Z2Nat.id by apply Z.log2_nonneg.
  destruct (Z.eq_dec n 0) as [->|Hn]; [reflexivity|].
  pose proof (Z.log2_spec n ltac:(lia)) as [_ Hlt].
  eapply Z.lt_le_trans; [exact Hlt|].
  apply Z.pow_le_mono_l. pose proof (Z.log2_nonneg n). lia.
Qed.

(** The decimal string of a number of at most four digits. *)
Lemma Itoa_small n :
  0 <= n <= 9999 ->
  Itoa n =
  if n <? 10 then String (digit_char (n mod 10)) ""
  else if n <? 100 then
    String (digit_char (n / 10 mod 10)) (String (digit_char (n mod 10)) "")
  else if n <? 1000 then
    String (digit_char (n / 100 mod 10))
      (String (digit_char (n / 10 mod 10)) (String (digit_char (n mod 10)) ""))
  else
    String (digit_char (n / 1000 mod 10))
      (String (digit_char (n / 100 mod 10))
         (String (digit_char (n / 10 mod 10))
            (String (digit_char (n mod 10)) ""))).
Proof.
  intros H. unfold Itoa.
  destruct (n <? 0) eqn:E0; [apply Z.ltb_lt in E0; lia|].
  destruct (n <? 10) eqn:E1.
  { apply Z.ltb_lt in E1. destruct (digits_bound_S n) as [k ->].
    now apply utoa_last. }
  apply Z.ltb_ge in E1.
  destruct (digits_bound_4 n) as [k ->]; [lia|].
  assert (n / 10 / 10 = n / 100) as H100
      by (rewrite Z.div_div by lia; reflexivity).
  rewrite utoa_more by lia.
  destruct (n <? 100) eqn:E2.
  { apply Z.ltb_lt in E2. apply utoa_last.
    apply Z.div_lt_upper_bound; lia. }
  apply Z.ltb_ge in E2.
  rewrite utoa_more by (apply Z.div_le_lower_bound; lia).
  rewrite H100.
  destruct (n <? 1000) eqn:E3.
  { apply Z.ltb_lt in E3. apply utoa_last.
    apply Z.div_lt_upper_bound; lia. }
  apply Z.ltb_ge in E3.
  rewrite utoa_more by (apply Z.div_le_lower_bound; lia).
  replace (n / 100 / 10) with (n / 1000)
    by (rewrite Z.div_div by lia; reflexivity).
  apply utoa_last. apply Z.div_lt_upper_bound; lia.
Qed.

Lemma Itoa_negative n :
  n < 0 -> exists rest, Itoa n = String "-" rest.
Proof.
  intros H. unfold Itoa.
  destruct (n <? 0) eqn:E; [eauto | apply Z.ltb_ge in E; lia].
Qed.

Lemma digit_range n k : 0 <= n / k mod 10 <= 9.
Proof. pose proof (Z.mod_pos_bound (n / k) 10). lia. Qed.

Lemma digit_range0 n : 0 <= n mod 10 <= 9.
Proof. pose proof (Z.mod_pos_bound n 10). lia. Qed.

Lemma decimal4_digits n : Forall (fun d => 0 <= d <= 9) (decimal4 n).
Proof.
  unfold decimal4.
  repeat (apply Forall_cons; split; [apply digit_range || apply digit_range0|]).
  apply Forall_nil. exact I.
Qed.

Lemma splitNumberIntoDigits_correct n :
  0 <= n <= 9999 -> splitNumberIntoDigits n = Returns (inl (decimal4 n)).
Proof.
  intros H. unfold splitNumberIntoDigits.
  destruct (n >? 9999) eqn:E; [apply Z.gtb_lt in E; lia|].
  rewrite Itoa_small by exact H. unfold decimal4.
  pose proof (digit_range n 1000) as D3. pose proof (digit_range n 100) as D2.
  pose proof (digit_range n 10) as D1. pose proof (digit_range0 n) as D0.
  destruct (n <? 10) eqn:E1; [apply Z.ltb_lt in E1|apply Z.ltb_ge in E1].
  { rewrite !(Z.div_small n) by lia.
    cbn [Split splitNumberIntoDigits_loop].
    rewrite Atoi_digit_char by exact D0. reflexivity. }
  destruct (n <? 100) eqn:E2; [apply Z.ltb_lt in E2|apply Z.ltb_ge in E2].
  { rewrite (Z.div_small n 1000), (Z.div_small n 100) by lia.
    cbn [Split splitNumberIntoDigits_loop].
    rewrite Atoi_digit_char by exact D1. cbn [length Z.of_nat].
    change (store (replicate 4 0) (4 - 2 + 0) (n / 10 mod 10))
      with (Some [0; 0; n / 10 mod 10; 0]).
    cbn iota. rewrite Atoi_digit_char by exact D0. reflexivity. }
  destruct (n <? 1000) eqn:E3; [apply Z.ltb_lt in E3|apply Z.ltb_ge in E3].
  { rewrite (Z.div_small n 1000) by lia.
    cbn [Split splitNumberIntoDigits_loop].
    rewrite Atoi_digit_char by exact D2.
    change (store (replicate 4 0) _ (n / 100 mod 10))
      with (Some [0; n / 100 mod 10; 0; 0]).
    cbn iota. rewrite Atoi_digit_char by exact D1.
    change (store [0; n / 100 mod 10; 0; 0] _ (n / 10 mod 10))
      with (Some [0; n / 100 mod 10; n / 10 mod 10; 0]).
    cbn iota. rewrite Atoi_digit_char by exact D0. reflexivity. }
  cbn [Split splitNumberIntoDigits_loop].
  rewrite Atoi_digit_char by exact D3.
  change (store (replicate 4 0) _ (n / 1000 mod 10))
    with (Some [n / 1000 mod 10; 0; 0; 0]).
  cbn iota. rewrite Atoi_digit_char by exact D2.
  change (store [n / 1000 mod 10; 0; 0; 0] _ (n / 100 mod 10))
    with (Some [n / 1000 mod 10; n / 100 mod 10; 0; 0]).
  cbn iota. rewrite Atoi_digit_char by exact D1.
  change (store [n / 1000 mod 10; n / 100 mod 10; 0; 0] _ (n / 10 mod 10))
    with (Some [n / 1000 mod 10; n / 100 mod 10; n / 10 mod 10; 0]).
  cbn iota. rewrite Atoi_digit_char by exact D0. reflexivity.
Qed.

Lemma splitNumberIntoDigits_too_big n :
  9999 < n -> splitNumberIntoDigits n = Returns (inr ErrNumberTooBig).
Proof.
  intros H. unfold splitNumberIntoDigits.
  destruct (n >? 9999) eqn:E; [reflexivity|].
  rewrite Z.gtb_ltb in E. apply Z.ltb_ge in E. lia.
Qed.

Lemma splitNumberIntoDigits_negative n :
  n < 0 ->
  splitNumberIntoDigits n = Returns (inr (NumError "Atoi" "-" ErrSyntax)).
Proof.
  intros H. unfold splitNumberIntoDigits.
  destruct (n >? 9999) eqn:E; [apply Z.gtb_lt in E; lia|].
  destruct (Itoa_negative n H) as [rest ->].
  cbn [Split splitNumberIntoDigits_loop]. now rewrite Atoi_minus.
Qed.

(** ** Binary strings *)

Lemma digit_of_binary c :
  match digit_of c with
  | Some d =>
      0 <= d /\ (d <? 2) = is_binary_char c /\
      (is_binary_char c = true ->
       d = if Ascii.eqb c "1"%char then 1 else 0)
  | None => is_binary_char c = false
  end.
Proof.
  destruct c as [[] [] [] [] [] [] [] []]; vm_compute;
    repeat split; congruence.
Qed.

Lemma binary_value_from_ge s acc :
  0 <= acc -> acc <= binary_value_from s acc.
Proof.
  revert acc. induction s as [|c r IH]; intros acc H; cbn [binary_value_from].
  - lia.
  - etransitivity; [|apply IH]; destruct (Ascii.eqb c "1"%char); lia.
Qed.

Section ParseBinary16.

Variables fn s0 : string.

(** One step of the scan on a binary digit that still fits. *)
Lemma scan_step c r n :
  is_binary_char c = true -> 0 <= n <= 65535 ->
  scan16 fn s0 (String c r) n =
  let n1 := 2 * n + (if Ascii.eqb c "1"%char then 1 else 0) in
  if n1 >? 65535 then (65535, Some (NumError fn s0 ErrRange))
  else scan16 fn s0 r n1.
Proof.
  intros Hc Hn. unfold scan16. cbn [ParseUint_loop].
  pose proof (digit_of_binary c) as Hd.
  destruct (digit_of c) as [d|]; [|congruence].
  destruct Hd as (Hd0 & Hlt & Hval). specialize (Hval Hc). rewrite Hc in Hlt.
  apply Z.ltb_lt in Hlt.
  destruct (d >=? 2) eqn:E1; [rewrite Z.geb_leb in E1; apply Z.leb_le in E1; lia|].
  change ((2 ^ 64 - 1) / 2 + 1) with 9223372036854775808.
  change (2 ^ 16 - 1) with 65535.
  destruct (n >=? 9223372036854775808) eqn:E2;
    [rewrite Z.geb_leb in E2; apply Z.leb_le in E2; lia|].
  unfold uint64. change (2 ^ 64) with 18446744073709551616.
  rewrite (Z.mod_small (n * 2)) by lia.
  rewrite (Z.mod_small (n * 2 + d)) by lia.
  destruct (n * 2 + d <? n * 2) eqn:E3; [apply Z.ltb_lt in E3; lia|].
  cbn [orb]. cbv zeta. rewrite <- Hval.
  replace (2 * n + d) with (n * 2 + d) by lia. reflexivity.
Qed.

Lemma scan_binary s n :
  all_binary s = true -> 0 <= n <= 65535 ->
  scan16 fn s0 s n =
  if binary_value_from s n >? 65535
  then (65535, Some (NumError fn s0 ErrRange))
  else (binary_value_from s n, None).
Proof.
  revert n. induction s as [|c r IH]; intros n Hs Hn.
  - cbn. destruct (n >? 65535) eqn:E; [apply Z.gtb_lt in E; lia|reflexivity].
  - cbn [all_binary] in Hs. apply andb_true_iff in Hs as [Hc Hr].
    rewrite scan_step by assumption. cbv zeta. cbn [binary_value_from].
    set (n1 := 2 * n + _).
    assert (0 <= n1) by (subst n1; destruct (Ascii.eqb c "1"%char); lia).
    destruct (n1 >? 65535) eqn:E.
    + apply Z.gtb_lt in E.
      pose proof (binary_value_from_ge r n1 ltac:(lia)).
      destruct (binary_value_from r n1 >? 65535) eqn:E';
        [reflexivity|].
      rewrite Z.gtb_ltb in E'. apply Z.ltb_ge in E'. lia.
    + rewrite Z.gtb_ltb in E. apply Z.ltb_ge in E. apply IH; [exact Hr|lia].
Qed.

Lemma scan_not_binary s n :
  all_binary s = false -> 0 <= n <= 65535 ->
  exists v kind, scan16 fn s0 s n = (v, Some (NumError fn s0 kind)).
Proof.
  revert n. induction s as [|c r IH]; intros n Hs Hn.
  - discriminate Hs.
  - cbn [all_binary] in Hs.
    destruct (is_binary_char c) eqn:Hc.
    + cbn [andb] in Hs. rewrite scan_step by assumption. cbv zeta.
      set (n1 := 2 * n + _).
      assert (0 <= n1) by (subst n1; destruct (Ascii.eqb c "1"%char); lia).
      destruct (n1 >? 65535) eqn:E; [eauto|].
      rewrite Z.gtb_ltb in E. apply Z.ltb_ge in E. apply IH; [exact Hs|lia].
    + unfold scan16. cbn [ParseUint_loop].
      pose proof (digit_of_binary c) as Hd.
      destruct (digit_of c) as [d|]; [|eauto].
      destruct Hd as (_ & Hlt & _). rewrite Hc in Hlt.
      apply Z.ltb_ge in Hlt.
      destruct (d >=? 2) eqn:E; [eauto|].
      rewrite Z.geb_leb in E. apply Z.leb_gt in E. lia.
Qed.

End ParseBinary16.

Lemma ParseUint_binary b :
  all_binary b = true -> b <> "" -> binary_value b <= 65535 ->
  ParseUint b 2 16 = (binary_value b, None).
Proof.
  intros Hb Hne Hv. unfold ParseUint, ParseUint_as.
  destruct b as [|c r]; [congruence|].
  change (ParseUint_loop _ _ _ _ _ _ _)
    with (scan16 "ParseUint" (String c r) (String c r) 0).
  rewrite scan_binary by (exact Hb || lia).
  fold (binary_value (String c r)).
  destruct (binary_value (String c r) >? 65535) eqn:E;
    [apply Z.gtb_lt in E; lia | reflexivity].
Qed.

Lemma ParseUint_binary_overflow b :
  all_binary b = true -> 65535 < binary_value b ->
  ParseUint b 2 16 = (65535, Some (NumError "ParseUint" b ErrRange)).
Proof.
  intros Hb Hv. unfold ParseUint, ParseUint_as.
  destruct b as [|c r]; [change (binary_value "") with 0 in Hv; lia|].
  change (ParseUint_loop _ _ _ _ _ _ _)
    with (scan16 "ParseUint" (String c r) (String c r) 0).
  rewrite scan_binary by (exact Hb || lia).
  fold (binary_value (String c r)).
  destruct (binary_value (String c r) >? 65535) eqn:E; [reflexivity|].
  rewrite Z.gtb_ltb in E. apply Z.ltb_ge in E. lia.
Qed.

Lemma ParseUint_not_binary b :
  all_binary b = false ->
  exists v kind, ParseUint b 2 16 = (v, Some (NumError "ParseUint" b kind)).
Proof.
  intros Hb. unfold ParseUint, ParseUint_as.
  destruct b as [|c r]; [discriminate Hb|].
  change (ParseUint_loop _ _ _ _ _ _ _)
    with (scan16 "ParseUint" (String c r) (String c r) 0).
  apply scan_not_binary; [exact Hb | lia].
Qed.

Lemma binary_value_nonneg b : 0 <= binary_value b.
Proof. apply (binary_value_from_ge b 0). lia. Qed.

Lemma ParseUint_ok b w :
  ParseUint b 2 16 = (w, None) ->
  all_binary b = true /\ b <> "" /\ w = binary_value b /\ 0 <= w <= 65535.
Proof.
  intros H.
  destruct (all_binary b) eqn:Hb.
  - destruct (Z_le_gt_dec (binary_value b) 65535) as [Hle|Hgt].
    + destruct b as [|c r]; [discriminate H|].
      rewrite ParseUint_binary in H by (assumption || discriminate).
      injection H as <-. pose proof (binary_value_nonneg (String c r)).
      repeat split; (discriminate || lia).
    + rewrite ParseUint_binary_overflow in H by (assumption || lia).
      discriminate H.
  - destruct (ParseUint_not_binary b Hb) as (v & kind & E).
    rewrite E in H. discriminate H.
Qed.

Lemma WriteBinary_transacts pos b w c :
  0 <= pos <= 3 -> ParseUint b 2 16 = (w, None) ->
  WriteBinary pos b c = transact (OpWriteWordData (colon_skip pos) w) c.
Proof.
  intros Hpos Hw. unfold WriteBinary.
  destruct (pos >? 3) eqn:E1; [apply Z.gtb_lt in E1; lia|].
  rewrite Hw. apply ParseUint_ok in Hw as (_ & _ & _ & Hr).
  destruct (w >? 65535) eqn:E2; [apply Z.gtb_lt in E2; lia|].
  rewrite register_of_position by exact Hpos.
  unfold uint16. rewrite Z.mod_small by lia. reflexivity.
Qed.

Lemma WriteBinary_parse_error pos b v e c :
  pos <= 3 -> ParseUint b 2 16 = (v, Some e) ->
  WriteBinary pos b c = (Returns (Some e), c).
Proof.
  intros Hpos He. unfold WriteBinary.
  destruct (pos >? 3) eqn:E1; [apply Z.gtb_lt in E1; lia|].
  now rewrite He.
Qed.

(** ** Whole-panel operations *)

Lemma Clear_issues c : Clear c = issue clear_ops c.
Proof. reflexivity. Qed.

Lemma guard_ext (m m' k k' : M (option error)) c :
  (forall x, m x = m' x) -> (forall x, k x = k' x) ->
  guard m k c = guard m' k' c.
Proof.
  intros Hm Hk. rewrite !guard_unfold, Hm.
  destruct (m' c) as [[[e|]|p] c']; auto.
Qed.

Lemma WriteDigit_is_digit_op p d c :
  0 <= p <= 3 -> 0 <= d <= 9 -> WriteDigit p d c = issue [digit_op (p, d)] c.
Proof. intros Hp Hd. rewrite issue_one. now apply WriteDigit_transacts. Qed.

Lemma slots_from_In ds : forall p0 p d,
  In (p, d) (slots_from p0 ds) <->
  exists i : nat, ds !! i = Some d /\ p = p0 + Z.of_nat i.
Proof.
  induction ds as [|d0 rest IH]; intros p0 p d; cbn [slots_from In].
  - split; [tauto | intros (i & Hi & _); discriminate Hi].
  - rewrite IH. split.
    + intros [Heq | (i & Hi & ->)].
      * injection Heq as <- <-. exists 0%nat. split; [reflexivity | lia].
      * exists (S i). split; [exact Hi | lia].
    + intros ([|i] & Hi & ->).
      * left. cbn in Hi. injection Hi as ->. f_equal. lia.
      * right. exists i. split; [exact Hi | lia].
Qed.

(** What the blanking keeps, in the words of the specification: the slot
    at index [i] is written exactly when some digit at or before it is
    not zero. *)
Lemma blank_leading_zeros_In ds : forall p0 p d,
  In (p, d) (blank_leading_zeros (slots_from p0 ds)) <->
  exists i : nat, ds !! i = Some d /\ p = p0 + Z.of_nat i /\
    exists (j : nat) (d' : Z), (j <= i)%nat /\ ds !! j = Some d' /\ d' <> 0.
Proof.
  induction ds as [|d0 rest IH]; intros p0 p d;
    cbn [slots_from blank_leading_zeros].
  - split; [intros [] | intros (i & Hi & _); discriminate Hi].
  - destruct (d0 =? 0) eqn:E0.
    + apply Z.eqb_eq in E0. subst d0. rewrite IH. split.
      * intros (i & Hi & -> & j & d' & Hj & Hd' & Hnz).
        exists (S i). split; [exact Hi|]. split; [lia|].
        exists (S j), d'. split; [lia|]. split; [exact Hd' | exact Hnz].
      * intros (i & Hi & -> & j & d' & Hj & Hd' & Hnz).
        destruct j as [|j]; [cbn in Hd'; injection Hd' as <-; lia|].
        destruct i as [|i]; [lia|].
        exists i. split; [exact Hi|]. split; [lia|].
        exists j, d'. split; [lia|]. split; [exact Hd' | exact Hnz].
    + apply Z.eqb_neq in E0.
      change ((p0, d0) :: slots_from (p0 + 1) rest)
        with (slots_from p0 (d0 :: rest)).
      rewrite slots_from_In. split.
      * intros (i & Hi & ->). exists i. split; [exact Hi|]. split; [lia|].
        exists 0%nat, d0. split; [lia|]. split; [reflexivity | exact E0].
      * intros (i & Hi & -> & _). exists i. split; [exact Hi | lia].
Qed.

(** The blanking only removes slots from the front. *)
Lemma blank_leading_zeros_suffix slots :
  exists k : nat, blank_leading_zeros slots = drop k slots.
Proof.
  induction slots as [|[p d] rest [k IH]]; cbn [blank_leading_zeros].
  - now exists 0%nat.
  - destruct (d =? 0); [now exists (S k) | now exists 0%nat].
Qed.

(** The flag of the scanning loop and the blanking of leading zeros say
    the same. *)
Lemma WriteNumber_loop_issues ds : forall pos found c,
  Forall (fun d => 0 <= d <= 9) ds ->
  0 <= pos -> pos + Z.of_nat (length ds) <= 4 ->
  WriteNumber_loop ds pos found c =
  issue (map digit_op
           (if found then slots_from pos ds
            else blank_leading_zeros (slots_from pos ds))) c.
Proof.
  induction ds as [|d rest IH]; intros pos found c Hds Hpos Hlen.
  - now destruct found.
  - apply Forall_cons in Hds as [Hd Hrest]. cbn [length] in Hlen.
    assert (uint8 pos = pos) as Hu by (unfold uint8; apply Z.mod_small; lia).
    assert (forall x,
      (check WriteDigit (uint8 pos) d ;; WriteNumber_loop rest (pos + 1) true) x
      = issue (map digit_op ((pos, d) :: slots_from (pos + 1) rest)) x) as Hwrite.
    { intros x. cbn [map issue]. apply guard_ext.
      - intros y. rewrite Hu. apply WriteDigit_transacts; lia.
      - intros y. apply (IH (pos + 1) true); [exact Hrest | lia | lia]. }
    cbn [WriteNumber_loop slots_from blank_leading_zeros].
    destruct (d >? 0) eqn:Egt.
    + apply Z.gtb_lt in Egt. cbn [negb].
      destruct (d =? 0) eqn:E0; [apply Z.eqb_eq in E0; lia|].
      rewrite Hwrite. now destruct found.
    + rewrite Z.gtb_ltb in Egt. apply Z.ltb_ge in Egt.
      assert (d = 0) as -> by lia. cbn [Z.eqb].
      destruct found; cbn [negb].
      * apply Hwrite.
      * apply (IH (pos + 1) false); [exact Hrest | lia | lia].
Qed.

Lemma WriteNumber_issues n c :
  0 <= n <= 9999 ->
  WriteNumber n c =
  issue (clear_ops ++
         map digit_op (blank_leading_zeros (slots_from 0 (decimal4 n)))) c.
Proof.
  intros H. unfold WriteNumber.
  rewrite splitNumberIntoDigits_correct by exact H.
  rewrite issue_app. apply guard_ext.
  - apply Clear_issues.
  - intros x. apply (WriteNumber_loop_issues (decimal4 n) 0 false).
    + apply decimal4_digits.
    + lia.
    + cbn. lia.
Qed.

Lemma WriteNumber_rejected n e c :
  splitNumberIntoDigits n = Returns (inr e) ->
  WriteNumber n c = (Returns (Some e), c).
Proof. intros H. unfold WriteNumber. now rewrite H. Qed.

(** ** Initialisation *)

Lemma Start_sequence_issues c : Start_sequence c = issue start_ops c.
Proof.
  unfold Start_sequence, start_ops. cbn [issue].
  apply guard_ext; [reflexivity|]. intros c1.
  apply guard_ext; [reflexivity|]. intros c2.
  apply guard_ext; [reflexivity|]. intros c3.
  apply guard_ext; reflexivity.
Qed.

(** * The claims of the specification *)

(** C1.  Colon-skip invariant: for logical positions 0 and 1, WriteDigit
    and WriteBinary write to physical sub-register offset [p*2]; for
    positions 2 and 3 they write to offset [(p+1)*2], which is not the
    offset [p*2] an identity mapping of slots would give. *)
Theorem position_register_mapping pos d b w c :
  0 <= d <= 9 -> ParseUint b 2 16 = (w, None) ->
  (pos = 0 \/ pos = 1 ->
     issued (snd (WriteDigit pos d c))
       = issued c ++ [OpWriteWordData (pos * 2) (segment_pattern d)] /\
     issued (snd (WriteBinary pos b c))
       = issued c ++ [OpWriteWordData (pos * 2) w]) /\
  (pos = 2 \/ pos = 3 ->
     issued (snd (WriteDigit pos d c))
       = issued c ++ [OpWriteWordData ((pos + 1) * 2) (segment_pattern d)] /\
     issued (snd (WriteBinary pos b c))
       = issued c ++ [OpWriteWordData ((pos + 1) * 2) w] /\
     (pos + 1) * 2 <> pos * 2).
Proof.
  intros Hd Hw. split; intros Hpos.
  - rewrite WriteDigit_transacts, (WriteBinary_transacts pos b w)
      by (assumption || lia).
    rewrite !transact_issued.
    replace (colon_skip pos) with (pos * 2); [split; reflexivity|].
    destruct Hpos as [-> | ->]; reflexivity.
  - rewrite WriteDigit_transacts, (WriteBinary_transacts pos b w)
      by (assumption || lia).
    rewrite !transact_issued.
    replace (colon_skip pos) with ((pos + 1) * 2);
      [repeat split; lia|].
    destruct Hpos as [-> | ->]; reflexivity.
Qed.

Lemma position_register_mapping_witness :
  issued (snd (WriteDigit 2 3 quiet)) = [OpWriteWordData 6 0x004F] /\
  issued (snd (WriteBinary 2 "101" quiet)) = [OpWriteWordData 6 5] /\
  issued (snd (WriteDigit 1 3 quiet)) = [OpWriteWordData 2 0x004F] /\
  issued (snd (WriteBinary 1 "101" quiet)) = [OpWriteWordData 2 5].
Proof.
  assert (0 <= 3 <= 9) as Hd by lia.
  assert (ParseUint "101" 2 16 = (5, None)) as Hw by reflexivity.
  pose proof (proj2 (position_register_mapping 2 3 "101" 5 quiet Hd Hw)
                (or_introl eq_refl)) as (H1 & H2 & _).
  pose proof (proj1 (position_register_mapping 1 3 "101" 5 quiet Hd Hw)
                (or_intror eq_refl)) as (H3 & H4).
  exact (conj H1 (conj H2 (conj H3 H4))).
Defined.

(** C2.  For every position in [0,3] and every digit in [0,9],
    [WriteDigit] issues exactly one bus write: a 16-bit word write of the
    digit's entry in the segment-pattern table to the colon-skip-mapped
    register of the position.  Its result is that write's result. *)
Theorem WriteDigit_one_write pos d c :
  0 <= pos <= 3 -> 0 <= d <= 9 ->
  let op := OpWriteWordData (colon_skip pos) (segment_pattern d) in
  WriteDigit pos d c =
    (Returns (fault c (issued c) op),
     mkConnection (issued c ++ [op]) (fault c) (rx c)) /\
  0 <= segment_pattern d < 2 ^ 16 /\
  map segment_pattern [0; 1; 2; 3; 4; 5; 6; 7; 8; 9] = digit.
Proof.
  intros Hpos Hd op. split; [|split].
  - now rewrite WriteDigit_transacts.
  - assert (d = 0 \/ d = 1 \/ d = 2 \/ d = 3 \/ d = 4 \/
            d = 5 \/ d = 6 \/ d = 7 \/ d = 8 \/ d = 9)
      as [->|[->|[->|[->|[->|[->|[->|[->|[->| ->]]]]]]]]] by lia;
      cbn; lia.
  - reflexivity.
Qed.

Lemma WriteDigit_one_write_witness :
  WriteDigit 3 0 quiet =
  (Returns None, mkConnection [OpWriteWordData 8 0x0C3F] (fault quiet) (rx quiet)).
Proof.
  assert (0 <= 3 <= 3) as Hpos by lia.
  assert (0 <= 0 <= 9) as Hd by lia.
  exact (proj1 (WriteDigit_one_write 3 0 quiet Hpos Hd)).
Defined.

(** C3.  The claim asks for the "digit too large" error for every digit
    outside [0,9].  For a negative digit the guard [d > 9] does not fire
    and the table lookup [digit[d]] panics instead of returning an error
    (no bus write has been issued at that point). *)
Theorem WriteDigit_negative_digit_panics c :
  WriteDigit 0 (-1) c = (Panics (IndexOutOfRange (-1) 10), c).
Proof. reflexivity. Qed.

(** C4.  [splitNumberIntoDigits] returns, for every n in [0,9999], the
    four decimal digits of n, most significant first and zero-padded on
    the left (0 gives [0,0,0,0], 10 gives [0,0,1,0], 1234 gives
    [1,2,3,4]); for every n above 9999 it fails. *)
Theorem splitNumberIntoDigits_total n :
  (0 <= n <= 9999 ->
     splitNumberIntoDigits n =
     Returns (inl [n / 1000 mod 10; n / 100 mod 10; n / 10 mod 10; n mod 10]))
  /\ (9999 < n -> splitNumberIntoDigits n = Returns (inr ErrNumberTooBig))
  /\ splitNumberIntoDigits 0 = Returns (inl [0; 0; 0; 0])
  /\ splitNumberIntoDigits 10 = Returns (inl [0; 0; 1; 0])
  /\ splitNumberIntoDigits 1234 = Returns (inl [1; 2; 3; 4]).
Proof.
  split; [|split; [|repeat split]].
  - apply splitNumberIntoDigits_correct.
  - apply splitNumberIntoDigits_too_big.
Qed.

Lemma splitNumberIntoDigits_total_witness :
  splitNumberIntoDigits 907 = Returns (inl [0; 9; 0; 7]) /\
  splitNumberIntoDigits 10000 = Returns (inr ErrNumberTooBig).
Proof.
  assert (0 <= 907 <= 9999) as Hin by lia.
  assert (9999 < 10000) as Hout by lia.
  split.
  - exact (proj1 (splitNumberIntoDigits_total 907) Hin).
  - exact (proj1 (proj2 (splitNumberIntoDigits_total 10000)) Hout).
Defined.

(** C5.  For every n in [0,9999], [WriteNumber n] first clears the whole
    panel and then scans the four digit slots from the left: no write for
    a slot while every digit seen so far is zero, and a digit write for
    every slot from the first nonzero digit on (interior and trailing
    zeros included).  The writes go out in this order until one fails; on
    a device that does not fail all of them go out. *)
Theorem WriteNumber_clear_then_scan n c :
  0 <= n <= 9999 ->
  let kept := blank_leading_zeros (slots_from 0 (decimal4 n)) in
  let writes := map digit_op kept in
  WriteNumber n c = issue (clear_ops ++ writes) c /\
  (reliable c ->
   WriteNumber n c =
   (Returns None,
    mkConnection (issued c ++ clear_ops ++ writes) (fault c) (rx c))) /\
  (forall (i : nat) (d : Z),
     In (Z.of_nat i, d) kept <->
     decimal4 n !! i = Some d /\
     exists (j : nat) (d' : Z),
       (j <= i)%nat /\ decimal4 n !! j = Some d' /\ d' <> 0) /\
  (exists k : nat, kept = drop k (slots_from 0 (decimal4 n))).
Proof.
  intros H kept writes. split; [|split; [|split]].
  - now apply WriteNumber_issues.
  - intros Hc. rewrite WriteNumber_issues by exact H.
    now apply issue_reliable.
  - intros i d. unfold kept. rewrite blank_leading_zeros_In. split.
    + intros (i' & Hi & Heq & Hnz).
      assert (i' = i) as -> by lia. now split.
    + intros [Hi Hnz]. exists i. split; [exact Hi|]. split; [lia | exact Hnz].
  - apply blank_leading_zeros_suffix.
Qed.

Lemma WriteNumber_clear_then_scan_witness :
  WriteNumber 7050 quiet =
  (Returns None,
   mkConnection
     [ OpWriteWordData 0 0; OpWriteWordData 2 0; OpWriteWordData 4 0;
       OpWriteWordData 6 0; OpWriteWordData 8 0;
       OpWriteWordData 0 0x0007; OpWriteWordData 2 0x0C3F;
       OpWriteWordData 6 0x00ED; OpWriteWordData 8 0x0C3F ]
     (fault quiet) (rx quiet)).
Proof.
  assert (0 <= 7050 <= 9999) as Hn by lia.
  assert (reliable quiet) as Hq by (intros past op; reflexivity).
  exact (proj1 (proj2 (WriteNumber_clear_then_scan 7050 quiet Hn)) Hq).
Defined.

(** C6, as the specification states it, fails: on a device that never
    fails, the write that follows the Clear in [WriteNumber 10] is not the
    pattern 0x004F at position 2's register. *)
Lemma WriteNumber_10_not_pattern_004F :
  ~ exists rest,
      issued (snd (WriteNumber 10 quiet)) =
      clear_ops ++ OpWriteWordData (colon_skip 2) 0x004F :: rest.
Proof. intros [rest H]. vm_compute in H. discriminate H. Qed.

(** C6, amended.  [WriteNumber 10] issues a Clear, skips positions 0 and 1
    as leading zeros, then writes digit 1 at position 2's colon-skip-mapped
    register with the pattern 0x0006 (the table entry of 1; 0x004F is the
    entry of 3), and then digit 0 at position 3's register. *)
Theorem WriteNumber_10 c :
  WriteNumber 10 c =
  issue (clear_ops ++ [ OpWriteWordData (colon_skip 2) 0x0006;
                        OpWriteWordData (colon_skip 3) 0x0C3F ]) c
  /\ segment_pattern 1 = 0x0006 /\ segment_pattern 3 = 0x004F.
Proof.
  split; [|split; reflexivity].
  rewrite WriteNumber_issues by lia. reflexivity.
Qed.

(** C7, as the specification states it, fails: a negative number is
    rejected, but not with the "number too large" error. *)
Lemma WriteNumber_negative_not_too_big :
  fst (WriteNumber (-1) quiet) <> Returns (Some ErrNumberTooBig).
Proof. vm_compute. discriminate. Qed.

(** C7, amended.  [WriteNumber n] performs no bus I/O for any n outside
    [0,9999]: for n above 9999 it fails with the "number too large" error,
    and for negative n it fails with the syntax error [strconv.Atoi]
    reports for the minus sign. *)
Theorem WriteNumber_out_of_range n c :
  (9999 < n -> WriteNumber n c = (Returns (Some ErrNumberTooBig), c)) /\
  (n < 0 ->
   WriteNumber n c = (Returns (Some (NumError "Atoi" "-" ErrSyntax)), c)).
Proof.
  split; intros H; apply WriteNumber_rejected.
  - now apply splitNumberIntoDigits_too_big.
  - now apply splitNumberIntoDigits_negative.
Qed.

Lemma WriteNumber_out_of_range_witness :
  WriteNumber 10000 quiet = (Returns (Some ErrNumberTooBig), quiet) /\
  WriteNumber (-42) quiet =
    (Returns (Some (NumError "Atoi" "-" ErrSyntax)), quiet).
Proof.
  assert (9999 < 10000) as Hbig by lia.
  assert (-42 < 0) as Hneg by lia.
  exact (conj (proj1 (WriteNumber_out_of_range 10000 quiet) Hbig)
              (proj2 (WriteNumber_out_of_range (-42) quiet) Hneg)).
Defined.

(** C8.  Once the connection is open, [Start] sends, in strict order, the
    oscillator-enable byte 0x21 (setup register or'ed with the oscillator
    bit), one dummy read, display-on (0x81) and brightness 15 (0xEF).  It
    stops at the first step that fails and returns that failure as it is:
    what went out is a prefix of the four steps, every step before the
    last one sent succeeded, and the result is the failure of the last one
    sent, or success when all four went out.  In particular a failed
    oscillator-enable write is the only transaction issued. *)
Theorem Start_strict_order h conn :
  GetConnection (connector h)
    (GetAddressOrDefault (config h) ht16k33Address)
    (GetBusOrDefault (config h) (GetDefaultBus (connector h))) = inl conn ->
  Z.lor ht16k33RegSetup ht16k33OscillatorOn = 0x21 /\
  start_ops =
    [ OpWriteByte 0x21; OpReadByte; OpWriteByte 0x81; OpWriteByte 0xEF ] /\
  Start h = (fst (issue start_ops conn),
             with_connection h (Some (snd (issue start_ops conn)))) /\
  (exists k : nat,
     (k <= 4)%nat /\
     connection (snd (Start h)) =
       Some (mkConnection (issued conn ++ take k start_ops)
                          (fault conn) (rx conn)) /\
     (forall j op, (j < k - 1)%nat -> start_ops !! j = Some op ->
        fault conn (issued conn ++ take j start_ops) op = None) /\
     match fst (Start h) with
     | Returns None => k = 4%nat
     | Returns (Some e) =>
         exists op, start_ops !! (k - 1)%nat = Some op /\ (0 < k)%nat /\
           fault conn (issued conn ++ take (k - 1) start_ops) op = Some e
     | Panics _ => False
     end) /\
  (forall e, fault conn (issued conn) (OpWriteByte 0x21) = Some e ->
     Start h =
     (Returns (Some e),
      with_connection h
        (Some (mkConnection (issued conn ++ [OpWriteByte 0x21])
                            (fault conn) (rx conn))))).
Proof.
  intros Hconn.
  assert (Start h = (fst (issue start_ops conn),
                     with_connection h (Some (snd (issue start_ops conn)))))
    as HStart.
  { unfold Start. rewrite Hconn, Start_sequence_issues.
    now destruct (issue start_ops conn). }
  split; [reflexivity|]. split; [reflexivity|]. split; [exact HStart|].
  split.
  - destruct (issue_prefix start_ops conn) as (k & Hk & Hsnd & Hbefore & Hres).
    exists k. rewrite HStart. cbn [fst snd with_connection connection].
    rewrite Hsnd. auto.
  - intros e He. rewrite HStart. unfold start_ops. cbn [issue].
    rewrite guard_unfold. cbn [transact]. rewrite He. reflexivity.
Qed.

Lemma Start_strict_order_witness :
  Start (mkDriver "HT16K33"
           (mkConnector 1
              (fun _ _ => inl (failing_at 0 (ErrTransport 5))))
           None (mkConfig (fun d => d) (fun d => d)))
  = (Returns (Some (ErrTransport 5)),
     mkDriver "HT16K33"
       (mkConnector 1
          (fun _ _ => inl (failing_at 0 (ErrTransport 5))))
       (Some (mkConnection [OpWriteByte 0x21]
                (fault (failing_at 0 (ErrTransport 5)))
                (rx (failing_at 0 (ErrTransport 5)))))
       (mkConfig (fun d => d) (fun d => d))).
Proof.
  pose proof (Start_strict_order
    (mkDriver "HT16K33"
       (mkConnector 1 (fun _ _ => inl (failing_at 0 (ErrTransport 5))))
       None (mkConfig (fun d => d) (fun d => d)))
    (failing_at 0 (ErrTransport 5)) eq_refl) as (_ & _ & _ & _ & H).
  exact (H (ErrTransport 5) eq_refl).
Defined.

(** C9.  For every position in [0,3], [WriteBinary] reads its string as a
    base-2 number of at most 16 bits and writes that 16-bit value to the
    colon-skip-mapped register of the position (the string
    0000000001001111 at position 0 writes 0x004F to register 0).  A string
    with a character other than 0 and 1, or whose value needs more than 16
    bits, makes the call fail with the parse error of [strconv.ParseUint]
    (syntax or range) without any bus write. *)
Theorem WriteBinary_parses_then_writes pos b c :
  0 <= pos <= 3 ->
  (all_binary b = true -> b <> "" -> binary_value b < 2 ^ 16 ->
   let op := OpWriteWordData (colon_skip pos) (binary_value b) in
   WriteBinary pos b c =
   (Returns (fault c (issued c) op),
    mkConnection (issued c ++ [op]) (fault c) (rx c))) /\
  (all_binary b = false \/ 2 ^ 16 <= binary_value b ->
   exists kind,
     WriteBinary pos b c = (Returns (Some (NumError "ParseUint" b kind)), c)) /\
  WriteBinary 0 "0000000001001111" c = transact (OpWriteWordData 0 0x004F) c.
Proof.
  intros Hpos. change (2 ^ 16) with 65536. split; [|split].
  - intros Hb Hne Hv op.
    rewrite (WriteBinary_transacts pos b (binary_value b)); [reflexivity|lia|].
    apply ParseUint_binary; (assumption || lia).
  - intros Hbad.
    destruct (all_binary b) eqn:Hb.
    + destruct Hbad as [Hbad|Hbad]; [discriminate Hbad|].
      exists ErrRange.
      eapply WriteBinary_parse_error; [lia|].
      apply ParseUint_binary_overflow; [exact Hb|lia].
    + destruct (ParseUint_not_binary b Hb) as (v & kind & E).
      exists kind. eapply WriteBinary_parse_error; [lia|exact E].
  - reflexivity.
Qed.

Lemma WriteBinary_parses_then_writes_witness :
  WriteBinary 3 "1111111100000000" quiet =
    (Returns None,
     mkConnection [OpWriteWordData 8 0xFF00] (fault quiet) (rx quiet)) /\
  (exists kind,
     WriteBinary 3 "FFFFFFFF" quiet =
     (Returns (Some (NumError "ParseUint" "FFFFFFFF" kind)), quiet)) /\
  (exists kind,
     WriteBinary 3 "10000000000000000" quiet =
     (Returns (Some (NumError "ParseUint" "10000000000000000" kind)), quiet)).
Proof.
  assert (0 <= 3 <= 3) as Hpos by lia.
  split; [|split].
  - refine (proj1 (WriteBinary_parses_then_writes 3 "1111111100000000"
                     quiet Hpos) eq_refl _ _).
    + discriminate.
    + vm_compute. reflexivity.
  - refine (proj1 (proj2 (WriteBinary_parses_then_writes 3 "FFFFFFFF"
                            quiet Hpos)) (or_introl eq_refl)).
  - refine (proj1 (proj2 (WriteBinary_parses_then_writes 3
                            "10000000000000000" quiet Hpos)) (or_intror _)).
    vm_compute. discriminate.
Defined.

(** C10.  [WriteNumber 0] writes no digit: its decomposition is all zeros,
    so every slot is skipped and the only transactions are the five word
    writes of the Clear; on a device that does not fail it succeeds, and
    the panel is left blank. *)
Theorem WriteNumber_zero_is_blank c :
  blank_leading_zeros (slots_from 0 (decimal4 0)) = [] /\
  WriteNumber 0 c = Clear c /\
  WriteNumber 0 c = issue clear_ops c /\
  (reliable c ->
   WriteNumber 0 c =
   (Returns None,
    mkConnection
      (issued c ++
       [ OpWriteWordData 0 0; OpWriteWordData 2 0; OpWriteWordData 4 0;
         OpWriteWordData 6 0; OpWriteWordData 8 0 ])
      (fault c) (rx c))).
Proof.
  assert (WriteNumber 0 c = issue clear_ops c) as H.
  { rewrite WriteNumber_issues by lia. cbn [app map]. reflexivity. }
  split; [reflexivity|]. split; [now rewrite Clear_issues|].
  split; [exact H|].
  intros Hc. rewrite H. now apply issue_reliable.
Qed.

Lemma WriteNumber_zero_is_blank_witness :
  WriteNumber 0 quiet =
  (Returns None,
   mkConnection
     [ OpWriteWordData 0 0; OpWriteWordData 2 0; OpWriteWordData 4 0;
       OpWriteWordData 6 0; OpWriteWordData 8 0 ]
     (fault quiet) (rx quiet)).
Proof.
  assert (reliable quiet) as Hq by (intros past op; reflexivity).
  destruct (WriteNumber_zero_is_blank quiet) as (_ & _ & _ & H).
  exact (H Hq).
Defined.

(** * Further properties of the driver *)

(** ** Brightness *)

Lemma lor_brightness b :
  0 <= b <= 15 -> Z.lor ht16k33RegBrightness b = 0xE0 + b.
Proof.
  intros H. replace b with (Z.of_nat (Z.to_nat b)) by lia.
  assert (Z.to_nat b < 16)%nat as Hk by lia.
  generalize dependent (Z.to_nat b). intros k Hk.
  do 16 (destruct k as [|k]; [reflexivity|]). lia.
Qed.

(** X1.  [SetBrightness] never rejects a level: for every byte it sends
    exactly one command byte, 0xE0 plus the level clamped to 15, so the
    byte always lies in 0xE0..0xEF and every level of 15 or more is sent
    as level 15. *)
Theorem SetBrightness_clamps b c :
  0 <= b < 256 ->
  SetBrightness b c = transact (OpWriteByte (0xE0 + Z.min b 15)) c /\
  (15 <= b -> SetBrightness b c = SetBrightness 15 c).
Proof.
  intros Hb. unfold SetBrightness.
  destruct (b >? 15) eqn:E.
  - apply Z.gtb_lt in E. rewrite Z.min_r by lia. split; reflexivity.
  - rewrite Z.gtb_ltb in E. apply Z.ltb_ge in E.
    rewrite Z.min_l by lia. rewrite lor_brightness by lia.
    split; [reflexivity|]. intros H15. assert (b = 15) as -> by lia.
    reflexivity.
Qed.

Lemma SetBrightness_clamps_witness :
  SetBrightness 200 quiet = transact (OpWriteByte 0xEF) quiet /\
  SetBrightness 200 quiet = SetBrightness 15 quiet.
Proof.
  assert (0 <= 200 < 256) as Hb by lia.
  assert (15 <= 200) as H15 by lia.
  destruct (SetBrightness_clamps 200 quiet Hb) as [H1 H2].
  exact (conj H1 (H2 H15)).
Defined.

(** ** Decomposition into digits *)

Lemma decimal4_recomposes n :
  0 <= n <= 9999 -> number_of_digits (decimal4 n) = n.
Proof.
  intros H. unfold number_of_digits, decimal4. cbn [fold_left].
  Z.to_euclidean_division_equations. lia.
Qed.

(** X2.  Whatever [splitNumberIntoDigits] returns without an error is a
    sequence of exactly four decimal digits that reads back as the
    number, and the number was in [0,9999]. *)
Theorem splitNumberIntoDigits_reads_back n ds :
  splitNumberIntoDigits n = Returns (inl ds) ->
  0 <= n <= 9999 /\ length ds = 4%nat /\
  Forall (fun d => 0 <= d <= 9) ds /\ number_of_digits ds = n.
Proof.
  intros H.
  destruct (Z_lt_le_dec n 0) as [Hneg|Hpos].
  { rewrite splitNumberIntoDigits_negative in H by exact Hneg. discriminate H. }
  destruct (Z_lt_le_dec 9999 n) as [Hbig|Hsmall].
  { rewrite splitNumberIntoDigits_too_big in H by exact Hbig. discriminate H. }
  rewrite splitNumberIntoDigits_correct in H by lia.
  injection H as <-. split; [lia|]. split; [reflexivity|]. split.
  - apply decimal4_digits.
  - apply decimal4_recomposes. lia.
Qed.

Lemma splitNumberIntoDigits_reads_back_witness :
  0 <= 4096 <= 9999 /\ length [4; 0; 9; 6] = 4%nat /\
  Forall (fun d => 0 <= d <= 9) [4; 0; 9; 6] /\
  number_of_digits [4; 0; 9; 6] = 4096.
Proof.
  exact (splitNumberIntoDigits_reads_back 4096 [4; 0; 9; 6] eq_refl).
Defined.

(** X3.  [splitNumberIntoDigits] never panics, whatever the integer: the
    right-justifying store [out[4-len(chars)+i]] is only reached with an
    index inside the slice.  It returns digits exactly on [0,9999], the
    "number too big" error above, and the syntax error of the minus sign
    below. *)
Theorem splitNumberIntoDigits_never_panics n :
  (exists r, splitNumberIntoDigits n = Returns r) /\
  ((exists ds, splitNumberIntoDigits n = Returns (inl ds)) <-> 0 <= n <= 9999).
Proof.
  destruct (Z_lt_le_dec n 0) as [Hneg|Hpos];
    [|destruct (Z_lt_le_dec 9999 n) as [Hbig|Hsmall]].
  - rewrite splitNumberIntoDigits_negative by exact Hneg.
    split; [eauto|]. split; [intros [ds H]; discriminate H | lia].
  - rewrite splitNumberIntoDigits_too_big by exact Hbig.
    split; [eauto|]. split; [intros [ds H]; discriminate H | lia].
  - rewrite splitNumberIntoDigits_correct by lia.
    split; [eauto|]. split; [lia | eauto].
Qed.

(** ** Writing a number *)




Lemma blank_four a b c d :
  blank_leading_zeros (slots_from 0 [a; b; c; d]) =
  if a =? 0 then
    if b =? 0 then
      if c =? 0 then if d =? 0 then [] else [(3, d)]
      else [(2, c); (3, d)]
    else [(1, b); (2, c); (3, d)]
  else [(0, a); (1, b); (2, c); (3, d)].
Proof.
  cbn [slots_from blank_leading_zeros].
  destruct (a =? 0), (b =? 0), (c =? 0), (d =? 0); reflexivity.
Qed.

Lemma leading_digit_zero n k :
  0 <= n -> 0 < k -> n < 10 * k -> (n / k mod 10 =? 0) = (n <? k).
Proof.
  intros Hn Hk Hlt.
  assert (n / k < 10) by (apply Z.div_lt_upper_bound; lia).
  assert (0 <= n / k) by (apply Z.div_pos; lia).
  rewrite Z.mod_small by lia.
  destruct (Z.ltb_spec n k) as [Hs|Hs].
  - rewrite Z.div_small by lia. reflexivity.
  - apply Z.eqb_neq. assert (1 <= n / k); [|lia].
    apply Z.div_le_lower_bound; lia.
Qed.

Lemma digit_writes_blanked n :
  0 <= n <= 9999 ->
  map digit_op (blank_leading_zeros (slots_from 0 (decimal4 n)))
  = digit_writes n.
Proof.
  intros H. unfold decimal4, digit_writes. rewrite blank_four.
  rewrite (leading_digit_zero n 1000) by lia.
  destruct (Z.ltb_spec n 1000) as [H3|H3].
  - rewrite (leading_digit_zero n 100) by lia.
    destruct (Z.ltb_spec n 100) as [H2|H2].
    + rewrite (leading_digit_zero n 10) by lia.
      destruct (Z.ltb_spec n 10) as [H1|H1].
      * rewrite <- (Z.div_1_r n) at 1.
        rewrite (leading_digit_zero n 1) by lia.
        destruct (Z.ltb_spec n 1) as [H0|H0]; [reflexivity|].
        cbn [map]. unfold digit_op. cbn [fst snd].
        now rewrite Z.div_1_r.
      * destruct (Z.ltb_spec n 1) as [H0|H0]; [lia|].
        cbn [map]. unfold digit_op. cbn [fst snd].
        now rewrite Z.div_1_r.
    + destruct (Z.ltb_spec n 1) as [H0|H0]; [lia|].
      destruct (Z.ltb_spec n 10) as [H1|H1]; [lia|].
      cbn [map]. unfold digit_op. cbn [fst snd].
      now rewrite Z.div_1_r.
  - destruct (Z.ltb_spec n 1) as [H0|H0]; [lia|].
    destruct (Z.ltb_spec n 10) as [H1|H1]; [lia|].
    destruct (Z.ltb_spec n 100) as [H2|H2]; [lia|].
    cbn [map]. unfold digit_op. cbn [fst snd].
    now rewrite Z.div_1_r.
Qed.

(** X5.  [WriteNumber] right-justifies: after the Clear it sends one digit
    write per decimal digit of the number, ending at position 3 (register
    8), so a one-digit number only writes register 8, a two-digit number
    registers 6 and 8, and so on; zero sends no digit write. *)
Theorem WriteNumber_right_justified n c :
  0 <= n <= 9999 ->
  WriteNumber n c = issue (clear_ops ++ digit_writes n) c /\
  Z.of_nat (length (digit_writes n)) =
    if n <? 1 then 0 else if n <? 10 then 1 else if n <? 100 then 2
    else if n <? 1000 then 3 else 4.
Proof.
  intros H. split.
  - rewrite WriteNumber_issues by exact H.
    now rewrite digit_writes_blanked.
  - unfold digit_writes.
    destruct (n <? 1), (n <? 10), (n <? 100), (n <? 1000); reflexivity.
Qed.

Lemma WriteNumber_right_justified_witness :
  WriteNumber 42 quiet =
    issue (clear_ops ++ [OpWriteWordData 6 0x00E6; OpWriteWordData 8 0x00DB])
      quiet /\
  Z.of_nat (length (digit_writes 42)) = 2.
Proof.
  assert (0 <= 42 <= 9999) as Hn by lia.
  exact (WriteNumber_right_justified 42 quiet Hn).
Defined.

(** ** What the panel shows *)

Lemma last_word_sent_app reg a : forall b cur,
  last_word_sent reg (a ++ b) cur =
  last_word_sent reg b (last_word_sent reg a cur).
Proof.
  induction a as [|[v| |r v] a IH]; intros b cur; cbn [app last_word_sent];
    auto.
Qed.

Lemma clear_ops_blank reg cur :
  In reg [0; 2; 4; 6; 8] -> last_word_sent reg clear_ops cur = Some 0.
Proof.
  cbn [In]. intros [<-|[<-|[<-|[<-|[<-|[]]]]]]; reflexivity.
Qed.

Lemma clear_ops_elsewhere reg cur :
  ~ In reg [0; 2; 4; 6; 8] -> last_word_sent reg clear_ops cur = cur.
Proof.
  intros H. unfold clear_ops. cbn [last_word_sent].
  repeat match goal with
         | |- context [?r =? reg] =>
             destruct (Z.eqb_spec r reg) as [Heq|_];
             [exfalso; apply H; rewrite <- Heq; cbn; tauto|]
         end.
  reflexivity.
Qed.

(** X6.  On a device that does not fail, [Clear] leaves zero as the last
    word sent to each of the registers 0, 2, 4, 6 and 8 (the four digits
    and the colon), whatever had been sent before, and sends nothing to
    any other register. *)
Theorem Clear_blanks_panel c reg :
  reliable c ->
  let sent := issued (snd (Clear c)) in
  (In reg [0; 2; 4; 6; 8] -> last_word_sent reg sent None = Some 0) /\
  (~ In reg [0; 2; 4; 6; 8] ->
   last_word_sent reg sent None = last_word_sent reg (issued c) None).
Proof.
  intros Hc sent. unfold sent.
  rewrite Clear_issues, issue_reliable by exact Hc. cbn [snd issued].
  rewrite last_word_sent_app. split; intros H.
  - now apply clear_ops_blank.
  - now apply clear_ops_elsewhere.
Qed.

Lemma Clear_blanks_panel_witness :
  last_word_sent 4 (issued (snd (Clear (snd (Colon true quiet))))) None
  = Some 0.
Proof.
  assert (reliable (snd (Colon true quiet))) as Hc
      by (intros past op; reflexivity).
  assert (In 4 [0; 2; 4; 6; 8]) as Hin by (cbn; tauto).
  exact (proj1 (Clear_blanks_panel (snd (Colon true quiet)) 4 Hc) Hin).
Defined.

(** X7.  What the panel shows after [WriteNumber] depends on the number
    only, not on what was displayed before: on a device that does not
    fail, the last word sent to the register of position i is the pattern
    of the i-th decimal digit if the number has a digit there, and zero
    (blank) if the number is smaller than [10^(3-i)]; the last word sent
    to the colon register is zero, so [WriteNumber] also turns the colon
    off. *)
Theorem WriteNumber_display n c :
  0 <= n <= 9999 -> reliable c ->
  let sent := issued (snd (WriteNumber n c)) in
  last_word_sent 4 sent None = Some 0 /\
  forall i, 0 <= i <= 3 ->
    last_word_sent (colon_skip i) sent None =
    Some (if n <? 10 ^ (3 - i) then 0
          else segment_pattern (n / 10 ^ (3 - i) mod 10)).
Proof.
  intros Hn Hc sent. unfold sent.
  rewrite WriteNumber_issues, digit_writes_blanked by exact Hn.
  rewrite issue_reliable by exact Hc. cbn [snd issued].
  rewrite !last_word_sent_app.
  split.
  - rewrite clear_ops_blank by (cbn; tauto).
    unfold digit_writes.
    destruct (n <? 1), (n <? 10), (n <? 100), (n <? 1000); reflexivity.
  - intros i Hi. rewrite !last_word_sent_app.
    assert (i = 0 \/ i = 1 \/ i = 2 \/ i = 3) as [->|[->|[->| ->]]] by lia;
      (rewrite clear_ops_blank by (cbn; tauto));
      unfold digit_writes;
      match goal with
      | |- context [10 ^ ?e] =>
          let v := eval cbv in (10 ^ e) in change (10 ^ e) with v
      end;
      destruct (Z.ltb_spec n 1), (Z.ltb_spec n 10), (Z.ltb_spec n 100),
        (Z.ltb_spec n 1000); try lia; reflexivity.
Qed.

Lemma WriteNumber_display_witness :
  last_word_sent 4
    (issued (snd (WriteNumber 42 (snd (WriteNumber 9876 quiet))))) None
    = Some 0 /\
  last_word_sent 0
    (issued (snd (WriteNumber 42 (snd (WriteNumber 9876 quiet))))) None
    = Some 0 /\
  last_word_sent 8
    (issued (snd (WriteNumber 42 (snd (WriteNumber 9876 quiet))))) None
    = Some 0x00DB.
Proof.
  assert (0 <= 42 <= 9999) as Hn by lia.
  assert (reliable (snd (WriteNumber 9876 quiet))) as Hc
      by (intros past op; reflexivity).
  assert (0 <= 0 <= 3) as H0 by lia.
  assert (0 <= 3 <= 3) as H3 by lia.
  destruct (WriteNumber_display 42 (snd (WriteNumber 9876 quiet)) Hn Hc)
    as [Hcolon Hdigits].
  exact (conj Hcolon (conj (Hdigits 0 H0) (Hdigits 3 H3))).
Defined.

(** ** The two writers of a position *)

Lemma colon_skip_registers pos :
  0 <= pos <= 3 -> In (colon_skip pos) [0; 2; 6; 8].
Proof.
  intros H.
  assert (pos = 0 \/ pos = 1 \/ pos = 2 \/ pos = 3) as [->|[->|[->| ->]]] by lia;
    cbn; tauto.
Qed.

Lemma ParseUint_error b v e :
  ParseUint b 2 16 = (v, Some e) ->
  exists kind, e = NumError "ParseUint" b kind.
Proof.
  intros H. destruct (all_binary b) eqn:Hb.
  - destruct b as [|ch r]; [injection H as _ <-; eauto|].
    destruct (Z_le_gt_dec (binary_value (String ch r)) 65535) as [Hle|Hgt].
    + rewrite ParseUint_binary in H by (assumption || discriminate).
      discriminate H.
    + rewrite ParseUint_binary_overflow in H by (assumption || lia).
      injection H as _ <-. eauto.
  - destruct (ParseUint_not_binary b Hb) as (v' & kind & E).
    rewrite E in H. injection H as _ <-. eauto.
Qed.

(** X8.  Neither writer ever touches the colon: for every position byte,
    digit and string, [WriteDigit] and [WriteBinary] send at most one
    transaction, and it is a word write to register 0, 2, 6 or 8, never
    to the colon register 4 in between. *)
Theorem writers_spare_colon pos d b c :
  0 <= pos < 256 ->
  let digit_register op :=
    exists reg v, op = OpWriteWordData reg v /\ In reg [0; 2; 6; 8] in
  (issued (snd (WriteDigit pos d c)) = issued c \/
   exists op, issued (snd (WriteDigit pos d c)) = issued c ++ [op] /\
              digit_register op) /\
  (issued (snd (WriteBinary pos b c)) = issued c \/
   exists op, issued (snd (WriteBinary pos b c)) = issued c ++ [op] /\
              digit_register op).
Proof.
  intros Hpos digit_register.
  destruct (Z_lt_le_dec 3 pos) as [Hbad|Hok].
  { rewrite WriteDigit_bad_position by exact Hbad.
    unfold WriteBinary. destruct (pos >? 3) eqn:E;
      [|rewrite Z.gtb_ltb in E; apply Z.ltb_ge in E; lia].
    split; left; reflexivity. }
  split.
  - destruct (Z_lt_le_dec d 0) as [Hneg|Hd0];
      [rewrite WriteDigit_negative_digit by assumption; now left|].
    destruct (Z_lt_le_dec 9 d) as [Hbig|Hd9];
      [rewrite WriteDigit_big_digit by assumption; now left|].
    right. rewrite WriteDigit_transacts by lia.
    eexists. split; [reflexivity|].
    eexists _, _. split; [reflexivity|]. apply colon_skip_registers. lia.
  - destruct (ParseUint b 2 16) as [w [e|]] eqn:E.
    + rewrite (WriteBinary_parse_error pos b w e) by assumption. now left.
    + right. rewrite (WriteBinary_transacts pos b w) by (assumption || lia).
      eexists. split; [reflexivity|].
      eexists _, _. split; [reflexivity|]. apply colon_skip_registers. lia.
Qed.

Lemma writers_spare_colon_witness :
  (issued (snd (WriteDigit 2 5 quiet)) = issued quiet \/
   exists op, issued (snd (WriteDigit 2 5 quiet)) = issued quiet ++ [op] /\
     exists reg v, op = OpWriteWordData reg v /\ In reg [0; 2; 6; 8]) /\
  (issued (snd (WriteBinary 2 "11" quiet)) = issued quiet \/
   exists op, issued (snd (WriteBinary 2 "11" quiet)) = issued quiet ++ [op] /\
     exists reg v, op = OpWriteWordData reg v /\ In reg [0; 2; 6; 8]).
Proof.
  assert (0 <= 2 < 256) as Hpos by lia.
  exact (writers_spare_colon 2 5 "11" quiet Hpos).
Defined.

(** X9.  [WriteBinary] itself never produces the "value too big" error:
    [ParseUint] with bit size 16 has already rejected what the guard
    [w > 65535] tests for.  If the call returns that error, it is the
    transport that reported it for the one word write sent. *)
Theorem WriteBinary_too_big_only_from_bus pos b c :
  fst (WriteBinary pos b c) = Returns (Some ErrBinaryTooBig) ->
  exists op,
    issued (snd (WriteBinary pos b c)) = issued c ++ [op] /\
    fault c (issued c) op = Some ErrBinaryTooBig.
Proof.
  unfold WriteBinary.
  destruct (pos >? 3); [discriminate|].
  destruct (ParseUint b 2 16) as [w [e|]] eqn:E.
  - destruct (ParseUint_error b w e E) as [kind ->]. discriminate.
  - apply ParseUint_ok in E as (_ & _ & _ & Hw).
    destruct (w >? 65535) eqn:E2; [apply Z.gtb_lt in E2; lia|].
    cbn [WriteWordData transact fst snd issued]. intros H.
    injection H as H. eauto.
Qed.

Lemma WriteBinary_too_big_only_from_bus_witness :
  exists op,
    issued (snd (WriteBinary 0 "1" (failing_at 0 ErrBinaryTooBig)))
      = issued (failing_at 0 ErrBinaryTooBig) ++ [op] /\
    fault (failing_at 0 ErrBinaryTooBig)
      (issued (failing_at 0 ErrBinaryTooBig)) op = Some ErrBinaryTooBig.
Proof.
  exact (WriteBinary_too_big_only_from_bus 0 "1"
           (failing_at 0 ErrBinaryTooBig) eq_refl).
Defined.

(** X10.  [WriteDigit] is [WriteBinary] on the digit's pattern: for a
    digit in [0,9] and any string that parses to its table entry, the two
    calls behave the same at every position, valid or not. *)
Theorem WriteDigit_is_WriteBinary pos d b c :
  0 <= d <= 9 -> ParseUint b 2 16 = (segment_pattern d, None) ->
  WriteBinary pos b c = WriteDigit pos d c.
Proof.
  intros Hd Hb. unfold WriteBinary, WriteDigit.
  destruct (pos >? 3); [reflexivity|].
  rewrite Hb. apply ParseUint_ok in Hb as (_ & _ & _ & Hw).
  destruct (segment_pattern d >? 65535) eqn:E1; [apply Z.gtb_lt in E1; lia|].
  destruct (d >? 9) eqn:E2; [apply Z.gtb_lt in E2; lia|].
  rewrite digit_lookup by exact Hd.
  unfold uint16. now rewrite Z.mod_small by lia.
Qed.

Lemma WriteDigit_is_WriteBinary_witness :
  WriteBinary 1 "0000000001001111" quiet = WriteDigit 1 3 quiet.
Proof.
  assert (0 <= 3 <= 9) as Hd by lia.
  exact (WriteDigit_is_WriteBinary 1 3 "0000000001001111" quiet Hd eq_refl).
Defined.

(** X11.  [WriteBinary] reads the value, not the width, of its string: a
    string it accepts is accepted with one more leading zero and sends
    the same write, so strings shorter or longer than 16 characters are
    fine as long as the value fits 16 bits. *)
Theorem WriteBinary_leading_zero pos b w c :
  ParseUint b 2 16 = (w, None) ->
  ParseUint (String "0" b) 2 16 = (w, None) /\
  WriteBinary pos (String "0" b) c = WriteBinary pos b c.
Proof.
  intros H.
  assert (ParseUint (String "0" b) 2 16 = (w, None)) as H0.
  { apply ParseUint_ok in H as (Hb & Hne & -> & Hw).
    change (binary_value b) with (binary_value (String "0" b)).
    apply ParseUint_binary.
    - cbn [all_binary]. now rewrite Hb.
    - discriminate.
    - change (binary_value (String "0" b)) with (binary_value b). lia. }
  split; [exact H0|]. unfold WriteBinary. now rewrite H, H0.
Qed.

Lemma WriteBinary_leading_zero_witness :
  ParseUint "01111" 2 16 = (15, None) /\
  WriteBinary 0 "01111" quiet = WriteBinary 0 "1111" quiet.
Proof.
  exact (WriteBinary_leading_zero 0 "1111" 15 quiet eq_refl).
Defined.

(** X12.  The position is checked before anything else: with a position
    above 3 both writers return the position error and send nothing,
    whatever the digit (a negative one does not panic here) and whatever
    the string (an unparsable one does not report a parse error here). *)
Theorem position_checked_first pos d b c :
  3 < pos ->
  WriteDigit pos d c = (Returns (Some ErrPositionOutOfRange), c) /\
  WriteBinary pos b c = (Returns (Some ErrPositionOutOfRange), c).
Proof.
  intros H. split; [now apply WriteDigit_bad_position|].
  unfold WriteBinary. destruct (pos >? 3) eqn:E; [reflexivity|].
  rewrite Z.gtb_ltb in E. apply Z.ltb_ge in E. lia.
Qed.

Lemma position_checked_first_witness :
  WriteDigit 4 (-1) quiet = (Returns (Some ErrPositionOutOfRange), quiet) /\
  WriteBinary 4 "xyz" quiet = (Returns (Some ErrPositionOutOfRange), quiet).
Proof.
  assert (3 < 4) as H by lia.
  exact (position_checked_first 4 (-1) "xyz" quiet H).
Defined.

(** X13.  Two different positions never share a register: writing a digit
    at one valid position and then a digit at another sends two word
    writes to two different registers, so the second does not overwrite
    the first. *)
Theorem positions_do_not_overlap p1 p2 d1 d2 c :
  0 <= p1 <= 3 -> 0 <= p2 <= 3 -> p1 <> p2 ->
  0 <= d1 <= 9 -> 0 <= d2 <= 9 ->
  exists r1 r2,
    r1 <> r2 /\
    issued (snd (WriteDigit p2 d2 (snd (WriteDigit p1 d1 c)))) =
    issued c ++ [ OpWriteWordData r1 (segment_pattern d1);
                  OpWriteWordData r2 (segment_pattern d2) ].
Proof.
  intros H1 H2 Hne Hd1 Hd2.
  exists (colon_skip p1), (colon_skip p2). split.
  - assert (p1 = 0 \/ p1 = 1 \/ p1 = 2 \/ p1 = 3) as [->|[->|[->| ->]]] by lia;
    assert (p2 = 0 \/ p2 = 1 \/ p2 = 2 \/ p2 = 3) as [->|[->|[->| ->]]] by lia;
      (congruence || (cbv; discriminate)).
  - rewrite (WriteDigit_transacts p2) by assumption.
    rewrite (WriteDigit_transacts p1) by assumption.
    cbn [transact snd issued]. now rewrite <- app_assoc.
Qed.

Lemma positions_do_not_overlap_witness :
  exists r1 r2,
    r1 <> r2 /\
    issued (snd (WriteDigit 2 7 (snd (WriteDigit 1 4 quiet)))) =
    issued quiet ++ [ OpWriteWordData r1 (segment_pattern 4);
                      OpWriteWordData r2 (segment_pattern 7) ].
Proof.
  assert (0 <= 1 <= 3) as H1 by lia. assert (0 <= 2 <= 3) as H2 by lia.
  assert (1 <> 2) as Hne by lia.
  assert (0 <= 4 <= 9) as Hd1 by lia. assert (0 <= 7 <= 9) as Hd2 by lia.
  exact (positions_do_not_overlap 1 2 4 7 quiet H1 H2 Hne Hd1 Hd2).
Defined.

(** ** The colon and the table *)



Lemma index_digit_range d w : index digit d = Some w -> 0 <= d <= 9.
Proof.
  unfold index. intros H.
  destruct (0 <=? d) eqn:E1; [|discriminate H].
  destruct (d <? Z.of_nat (length digit)) eqn:E2; [|discriminate H].
  apply Z.leb_le in E1. apply Z.ltb_lt in E2. cbn in E2. lia.
Qed.

(** X15.  No two digits look alike: two entries of the table [digit] that
    light the same set of the seven segments (bits 0 to 6) belong to the
    same digit. *)
Theorem digits_look_different d1 d2 w1 w2 :
  index digit d1 = Some w1 -> index digit d2 = Some w2 ->
  Z.land w1 0x7F = Z.land w2 0x7F -> d1 = d2.
Proof.
  intros H1 H2 Hsame.
  pose proof (index_digit_range d1 w1 H1) as R1.
  pose proof (index_digit_range d2 w2 H2) as R2.
  rewrite digit_lookup in H1, H2 by assumption.
  injection H1 as <-. injection H2 as <-.
  assert (d1 = 0 \/ d1 = 1 \/ d1 = 2 \/ d1 = 3 \/ d1 = 4 \/
          d1 = 5 \/ d1 = 6 \/ d1 = 7 \/ d1 = 8 \/ d1 = 9)
    as [->|[->|[->|[->|[->|[->|[->|[->|[->| ->]]]]]]]]] by lia;
  assert (d2 = 0 \/ d2 = 1 \/ d2 = 2 \/ d2 = 3 \/ d2 = 4 \/
          d2 = 5 \/ d2 = 6 \/ d2 = 7 \/ d2 = 8 \/ d2 = 9)
    as [->|[->|[->|[->|[->|[->|[->|[->|[->| ->]]]]]]]]] by lia;
    (reflexivity || (cbv in Hsame; discriminate Hsame)).
Qed.

Lemma digits_look_different_witness : 8 = 8.
Proof.
  exact (digits_look_different 8 8 0x00FF 0x00FF eq_refl eq_refl eq_refl).
Defined.

(** ** The test helper *)

Lemma land_shifted_byte lo hi :
  0 <= lo < 256 -> Z.land (hi * 2 ^ 8) lo = 0.
Proof.
  intros Hlo. apply Z.bits_inj'. intros i Hi.
  rewrite Z.land_spec, Z.bits_0.
  destruct (Z_lt_le_dec i 8) as [Hlow|Hhigh].
  - now rewrite Z.mul_pow2_bits_low by lia.
  - destruct (Z.eq_dec lo 0) as [->|Hnz];
      [rewrite Z.bits_0; apply andb_false_r|].
    rewrite (Z.bits_above_log2 lo i); [apply andb_false_r | lia |].
    apply Z.lt_le_trans with 8; [|exact Hhigh].
    apply Z.log2_lt_pow2; lia.
Qed.

Lemma lor_bytes lo hi :
  0 <= lo < 256 -> Z.lor (Z.shiftl hi 8) lo = lo + 256 * hi.
Proof.
  intros Hlo. rewrite Z.shiftl_mul_pow2 by lia.
  rewrite <- Z.lxor_lor, <- Z.add_nocarry_lxor
    by now apply land_shifted_byte.
  change (2 ^ 8) with 256. lia.
Qed.

(** X16.  [i2cWriteByteToWord] decodes little-endian: for two bytes it
    returns the first plus 256 times the second, a 16-bit value from which
    both bytes can be recovered. *)
Theorem i2cWriteByteToWord_little_endian lo hi :
  0 <= lo < 256 -> 0 <= hi < 256 ->
  i2cWriteByteToWord [lo; hi] = inl (lo + 256 * hi) /\
  0 <= lo + 256 * hi < 65536 /\
  (lo + 256 * hi) mod 256 = lo /\ (lo + 256 * hi) / 256 = hi.
Proof.
  intros Hlo Hhi. unfold i2cWriteByteToWord, uint16.
  rewrite (Z.mod_small hi), (Z.mod_small lo) by lia.
  rewrite Z.shiftl_mul_pow2 by lia.
  rewrite (Z.mod_small (hi * 2 ^ 8)) by lia.
  rewrite <- Z.shiftl_mul_pow2 by lia.
  rewrite lor_bytes by exact Hlo.
  split; [reflexivity|]. split; [lia|].
  Z.to_euclidean_division_equations. lia.
Qed.

Lemma i2cWriteByteToWord_little_endian_witness :
  i2cWriteByteToWord [0x4F; 0x0C] = inl 0x0C4F.
Proof.
  assert (0 <= 0x4F < 256) as Hlo by lia.
  assert (0 <= 0x0C < 256) as Hhi by lia.
  exact (proj1 (i2cWriteByteToWord_little_endian 0x4F 0x0C Hlo Hhi)).
Defined.

(** It accepts exactly the slices of two bytes. *)
Lemma i2cWriteByteToWord_length b :
  (exists w, i2cWriteByteToWord b = inl w) <-> length b = 2%nat.
Proof.
  destruct b as [|b0 [|b1 [|b2 rest]]]; cbn; split;
    try (intros [w H]; discriminate H); try discriminate; eauto.
Qed.

(** ** Where the errors of WriteNumber come from *)

(** X17.  For a number in [0,9999], an error returned by [WriteNumber] is
    never one of the driver's own validation errors: it is the error the
    transport reported for the last transaction sent, returned as it is,
    and nothing was sent after that transaction. *)
Theorem WriteNumber_error_is_from_bus n c e :
  0 <= n <= 9999 ->
  fst (WriteNumber n c) = Returns (Some e) ->
  exists before op after,
    clear_ops ++ digit_writes n = before ++ op :: after /\
    issued (snd (WriteNumber n c)) = issued c ++ before ++ [op] /\
    fault c (issued c ++ before) op = Some e.
Proof.
  intros Hn.
  rewrite (WriteNumber_issues n c Hn).
  rewrite digit_writes_blanked by exact Hn.
  set (ops := clear_ops ++ digit_writes n).
  destruct (issue_prefix ops c) as (k & Hk & Hsnd & _ & Hres).
  intros He. rewrite He in Hres.
  destruct Hres as (op & Hlook & Hpos & Hfail).
  exists (take (k - 1) ops), op, (drop k ops). split; [|split].
  - rewrite <- (take_drop k ops) at 1.
    replace k with (S (k - 1)) at 1 by lia.
    rewrite (take_S_r ops (k - 1) op Hlook), <- app_assoc. reflexivity.
  - rewrite Hsnd. cbn [issued].
    replace k with (S (k - 1)) at 1 by lia.
    now rewrite (take_S_r ops (k - 1) op Hlook).
  - exact Hfail.
Qed.

Lemma WriteNumber_error_is_from_bus_witness :
  exists before op after,
    clear_ops ++ digit_writes 42 = before ++ op :: after /\
    issued (snd (WriteNumber 42 (failing_at 5 (ErrTransport 9)))) =
      issued (failing_at 5 (ErrTransport 9)) ++ before ++ [op] /\
    fault (failing_at 5 (ErrTransport 9))
      (issued (failing_at 5 (ErrTransport 9)) ++ before) op
      = Some (ErrTransport 9).
Proof.
  assert (0 <= 42 <= 9999) as Hn by lia.
  exact (WriteNumber_error_is_from_bus 42 (failing_at 5 (ErrTransport 9))
           (ErrTransport 9) Hn eq_refl).
Defined.
